(** * The cleaning task of the motor-insurance ETL DAG

    A shallow embedding of [clean_data] from [insurance_etl_dag.py].

    The task reads a semicolon separated extract into a pandas DataFrame,
    repairs it column by column and writes the result as Parquet.  The
    DataFrame is modelled as a record of columns, every pandas call of the
    task as a function on columns, and a Python exception as the [Raise]
    branch of an error monad: [clean_data df = Ok out] says that line 84 was
    reached and [out] was handed to [to_parquet], [Raise e] that the task
    stopped before writing anything.  [clean_data_logged] is the same task
    together with the records it logs, and [written_ms] the timestamps that
    [to_parquet] writes; reading the CSV and a write that fails are outside
    the model.

    Conventions taken from the libraries the task runs on (Airflow 2, for
    [days_ago], with pandas 2.x, where [pd.Timestamp("0001-01-01")] is a
    value and not an out-of-bounds error):
    - [Series.fillna(..., inplace=True)] on a column selected from the frame
      writes through to the frame;
    - a float is a binary64 number, and NaN is the null of a float column;
      [Series.mean()] is the numpy reduction (bottleneck is not installed);
    - a float that does not fit int64 is cast as x86-64 does;
    - text is ASCII. *)

From Stdlib Require Import ZArith String Ascii Lia.
From Stdlib Require Import Floats.PrimFloat Floats.SpecFloat Floats.FloatOps Uint63.
From stdpp Require Import base option list.

Local Open Scope string_scope.
Local Open Scope Z_scope.

(** ** Exceptions and the error monad *)

Inductive exn : Set :=
  | ValueError        (* int() of non-numeric text, or of NaN *)
  | OverflowError     (* an integer that does not fit int64 *)
  | TypeError         (* tz-naive against tz-aware, already tz-aware *)
  | AttributeError.   (* [.dt] on a column that is not datetime-like *)

Inductive result (A : Type) : Type :=
  | Ok (a : A)
  | Raise (e : exn).
Arguments Ok {A} a.
Arguments Raise {A} e.

Definition bind {A B} (m : result A) (k : A -> result B) : result B :=
  match m with
  | Ok a => k a
  | Raise e => Raise e
  end.

Notation "'let*' x ':=' m 'in' k" := (bind m (fun x => k))
  (at level 10, x name, m at level 100, k at level 200).

Fixpoint mapM {A B} (f : A -> result B) (l : list A) : result (list B) :=
  match l with
  | [] => Ok []
  | x :: l' => let* y := f x in let* ys := mapM f l' in Ok (y :: ys)
  end.

Fixpoint foldM {A S} (f : A -> S -> result S) (l : list A) (s : S) : result S :=
  match l with
  | [] => Ok s
  | x :: l' => let* s' := f x s in foldM f l' s'
  end.

(** ** The DataFrame *)

(** tz of a datetime64 column: [Naive] is [datetime64[ns]], [UTC] is
    [datetime64[ns, UTC]]. *)
Inductive Zone : Set := Naive | UTC.

(** A date column is either still the text read from the CSV (object dtype,
    NaN for an empty field) or a datetime64 column, its instants counted in
    nanoseconds since the epoch, NaT being [None]; a [datetime64[ns]]
    column holds the instants of the int64 range, a column of a coarser
    unit holds others too.  A column of integers, which [to_datetime] takes
    for nanoseconds, is the tz-naive column of these instants.  [UTC]
    stands for every tz-aware column: the task raises on all of them
    alike. *)
Inductive DateCol : Type :=
  | Text (cells : list (option string))
  | Datetime (tz : Zone) (cells : list (option Z)).

(** A cell of [Distribution_channel], as [read_csv] can leave it: NaN; an
    integer of an int64 column, or a Python integer of an object column; an
    integer of a uint64 column; a float of a float64 column; a Python float
    of an object column; or text. *)
Inductive ChannelCell : Type :=
  | ChNull
  | ChInt (z : Z)
  | ChUInt (z : Z)
  | ChFloat (x : float)
  | ChFloatObj (x : float)
  | ChStr (s : string).

Record DataFrame : Type := {
  Type_fuel : list (option string);
  Length : list (option float);
  Distribution_channel : list ChannelCell;
  Lapse : list (option Z);
  Date_start_contract : DateCol;
  Date_last_renewal : DateCol;
  Date_next_renewal : DateCol;
  Date_birth : DateCol;
  Date_driving_licence : DateCol;
  Date_lapse : DateCol;
  flag_invalid_start_vs_last : option (list Z)
}.

Inductive DateField : Set :=
  | F_start_contract | F_last_renewal | F_next_renewal
  | F_birth | F_driving_licence | F_lapse.

#[global] Instance DateField_eq_dec : EqDecision DateField.
Proof. solve_decision. Defined.

Definition get_date (f : DateField) (df : DataFrame) : DateCol :=
  match f with
  | F_start_contract => Date_start_contract df
  | F_last_renewal => Date_last_renewal df
  | F_next_renewal => Date_next_renewal df
  | F_birth => Date_birth df
  | F_driving_licence => Date_driving_licence df
  | F_lapse => Date_lapse df
  end.

Definition set_Type_fuel (v : list (option string)) (df : DataFrame) : DataFrame :=
  {| Type_fuel := v; Length := Length df;
     Distribution_channel := Distribution_channel df; Lapse := Lapse df;
     Date_start_contract := Date_start_contract df;
     Date_last_renewal := Date_last_renewal df;
     Date_next_renewal := Date_next_renewal df;
     Date_birth := Date_birth df;
     Date_driving_licence := Date_driving_licence df;
     Date_lapse := Date_lapse df;
     flag_invalid_start_vs_last := flag_invalid_start_vs_last df |}.

Definition set_Length (v : list (option float)) (df : DataFrame) : DataFrame :=
  {| Type_fuel := Type_fuel df; Length := v;
     Distribution_channel := Distribution_channel df; Lapse := Lapse df;
     Date_start_contract := Date_start_contract df;
     Date_last_renewal := Date_last_renewal df;
     Date_next_renewal := Date_next_renewal df;
     Date_birth := Date_birth df;
     Date_driving_licence := Date_driving_licence df;
     Date_lapse := Date_lapse df;
     flag_invalid_start_vs_last := flag_invalid_start_vs_last df |}.

Definition set_Distribution_channel (v : list ChannelCell) (df : DataFrame) : DataFrame :=
  {| Type_fuel := Type_fuel df; Length := Length df;
     Distribution_channel := v; Lapse := Lapse df;
     Date_start_contract := Date_start_contract df;
     Date_last_renewal := Date_last_renewal df;
     Date_next_renewal := Date_next_renewal df;
     Date_birth := Date_birth df;
     Date_driving_licence := Date_driving_licence df;
     Date_lapse := Date_lapse df;
     flag_invalid_start_vs_last := flag_invalid_start_vs_last df |}.

Definition set_flag (v : list Z) (df : DataFrame) : DataFrame :=
  {| Type_fuel := Type_fuel df; Length := Length df;
     Distribution_channel := Distribution_channel df; Lapse := Lapse df;
     Date_start_contract := Date_start_contract df;
     Date_last_renewal := Date_last_renewal df;
     Date_next_renewal := Date_next_renewal df;
     Date_birth := Date_birth df;
     Date_driving_licence := Date_driving_licence df;
     Date_lapse := Date_lapse df;
     flag_invalid_start_vs_last := Some v |}.

Definition set_date (f : DateField) (v : DateCol) (df : DataFrame) : DataFrame :=
  {| Type_fuel := Type_fuel df; Length := Length df;
     Distribution_channel := Distribution_channel df; Lapse := Lapse df;
     Date_start_contract :=
       match f with F_start_contract => v | _ => Date_start_contract df end;
     Date_last_renewal :=
       match f with F_last_renewal => v | _ => Date_last_renewal df end;
     Date_next_renewal :=
       match f with F_next_renewal => v | _ => Date_next_renewal df end;
     Date_birth :=
       match f with F_birth => v | _ => Date_birth df end;
     Date_driving_licence :=
       match f with F_driving_licence => v | _ => Date_driving_licence df end;
     Date_lapse :=
       match f with F_lapse => v | _ => Date_lapse df end;
     flag_invalid_start_vs_last := flag_invalid_start_vs_last df |}.

(** ** Missing values (lines 36 and 40-41) *)

(** [Series.fillna(v)]: every null cell takes [v].  A float [v] may itself be
    NaN, the null of the column, which leaves the cell null. *)
Definition fillna {A} (v : option A) (col : list (option A)) : list (option A) :=
  (fun c => match c with Some _ => c | None => v end) <$> col.

Definition dropna {A} (col : list (option A)) : list A := omap id col.

(** The sum of a float64 array as numpy computes it: pairwise, that is,
    in order for fewer than 8 items; with 8 running sums, added two by two
    at the end and followed by what is left over, up to 128 items; and by
    halves, cut at a multiple of 8, beyond.  The sums start from 0.; a
    numpy that starts them from -0. differs in the sign of a zero sum and
    in nothing else. *)
Fixpoint sum_in_order (acc : float) (a : list float) : float :=
  match a with
  | [] => acc
  | x :: a' => sum_in_order (acc + x)%float a'
  end.

Fixpoint add_blocks (blocks : nat) (r a : list float) : list float * list float :=
  match blocks with
  | O => (r, a)
  | S b => add_blocks b (zip_with PrimFloat.add r (take 8 a)) (drop 8 a)
  end.

Definition sum_unrolled (a : list float) : float :=
  let (r, rest) := add_blocks (length a / 8 - 1) (take 8 a) (drop 8 a) in
  match r with
  | [r0; r1; r2; r3; r4; r5; r6; r7] =>
      sum_in_order (((r0 + r1) + (r2 + r3)) + ((r4 + r5) + (r6 + r7)))%float rest
  | _ => 0%float
  end.

Fixpoint pairwise_sum (fuel : nat) (a : list float) : float :=
  let n := length a in
  if (n <? 8)%nat then sum_in_order 0%float a
  else if (n <=? 128)%nat then sum_unrolled a
  else match fuel with
       | O => 0%float
       | S fuel' =>
           let n2 := (n / 2 - (n / 2) mod 8)%nat in
           (pairwise_sum fuel' (take n2 a) + pairwise_sum fuel' (drop n2 a))%float
       end.

Definition np_sum (a : list float) : float :=
  (0 + pairwise_sum (length a) a)%float.

(** [Series.mean()]: the nulls count as 0 in the sum and not at all in the
    count; over no value at all, and when the sum is NaN, it is NaN.  NaN
    being the null of the column, a cell [Some x] holds an [x] that is not
    NaN. *)
Definition mean (col : list (option float)) : option float :=
  match length (dropna col) with
  | O => None
  | count =>
      let total := np_sum ((fun c => default 0%float c) <$> col) in
      let m := (total / PrimFloat.of_uint63 (Uint63.of_Z (Z.of_nat count)))%float in
      if is_nan m then None else Some m
  end.

(** ** Distribution_channel (lines 46-47) *)

Definition sentinel : string := "00/01/1900".

(** [Series.replace('00/01/1900', 0)]: a cell equal to the text becomes the
    integer 0, every other cell stays. *)
Definition replace_sentinel (c : ChannelCell) : ChannelCell :=
  match c with
  | ChStr s => if String.eqb s sentinel then ChInt 0 else c
  | _ => c
  end.

(** Python's [int(str)] in base 10: surrounding whitespace is dropped, one
    sign may lead, and the rest is a non-empty run of digits in which single
    underscores may separate digits. *)
Definition is_space (c : ascii) : bool :=
  let n := nat_of_ascii c in
  ((9 <=? n) && (n <=? 13) || (n =? 32))%nat.

Definition is_digit (c : ascii) : bool :=
  let n := nat_of_ascii c in ((48 <=? n) && (n <=? 57))%nat.

Definition digit_val (c : ascii) : Z := Z.of_nat (nat_of_ascii c) - 48.

Fixpoint lstrip (l : list ascii) : list ascii :=
  match l with
  | c :: l' => if is_space c then lstrip l' else l
  | [] => []
  end.

Definition strip (l : list ascii) : list ascii :=
  rev (lstrip (rev (lstrip l))).

Fixpoint digits_acc (acc : Z) (after_digit : bool) (l : list ascii) : option Z :=
  match l with
  | [] => if after_digit then Some acc else None
  | c :: l' =>
      if is_digit c then digits_acc (10 * acc + digit_val c) true l'
      else if Ascii.eqb c "_"
           then (if after_digit then digits_acc acc false l' else None)
           else None
  end.

Definition py_int (s : string) : option Z :=
  match strip (list_ascii_of_string s) with
  | c :: ds =>
      if Ascii.eqb c "+" then digits_acc 0 false ds
      else if Ascii.eqb c "-" then Z.opp <$> digits_acc 0 false ds
      else digits_acc 0 false (c :: ds)
  | [] => None
  end.


Definition int64_min : Z := - 2 ^ 63.
Definition int64_max : Z := 2 ^ 63 - 1.

Definition to_int64 (z : Z) : result Z :=
  if (int64_min <=? z) && (z <=? int64_max) then Ok z else Raise OverflowError.

(** A uint64 is cast to int64 bit for bit. *)
Definition wrap64 (z : Z) : Z := (z + 2 ^ 63) mod 2 ^ 64 - 2 ^ 63.

(** The value of a finite float, as an integer number of units of 2^-1074:
    every finite binary64 value is one. *)
Definition exact (x : float) : option Z :=
  match Prim2SF x with
  | S754_zero _ => Some 0
  | S754_finite neg m e =>
      let v := Z.pos m * 2 ^ (e + 1074) in
      Some (if neg then - v else v)
  | _ => None
  end.

(** The integer part of a finite float: its fraction is dropped. *)
Definition float_int (x : float) : option Z :=
  match Prim2SF x with
  | S754_zero _ => Some 0
  | S754_finite neg m e =>
      let magnitude := if 0 <=? e then Z.pos m * 2 ^ e else Z.pos m / 2 ^ (- e) in
      Some (if neg then - magnitude else magnitude)
  | S754_infinity _ | S754_nan => None
  end.

(** A float64 column is cast to int64 when all of it is finite: a float
    loses its fraction, and one that does not fit int64 comes out as the
    smallest int64. *)
Definition float_trunc (x : float) : option Z :=
  match float_int x with
  | Some z => Some (if (int64_min <=? z) && (z <=? int64_max) then z else int64_min)
  | None => None
  end.

(** [int(x)] of a Python float, then the cast to int64. *)
Definition py_int_of_float (x : float) : result Z :=
  match float_int x with
  | Some z => to_int64 z
  | None => if is_nan x then Raise ValueError else Raise OverflowError
  end.

(** One cell of [Series.astype(int)]: NaN and the infinities cannot be
    integers; an int64 stays; a Python integer has to fit int64; a uint64
    wraps; a float loses its fraction, and a Python float has then to fit
    int64; text goes through [int()] and has to fit int64. *)
Definition astype_int_cell (c : ChannelCell) : result Z :=
  match c with
  | ChNull => Raise ValueError
  | ChInt z => to_int64 z
  | ChUInt z => Ok (wrap64 z)
  | ChFloat x =>
      match float_trunc x with
      | Some z => Ok z
      | None => Raise ValueError
      end
  | ChFloatObj x => py_int_of_float x
  | ChStr s =>
      match py_int s with
      | Some z => to_int64 z
      | None => Raise ValueError
      end
  end.

Definition astype_int (col : list ChannelCell) : result (list ChannelCell) :=
  let* zs := mapM astype_int_cell col in Ok (ChInt <$> zs).

(** ** Date columns (lines 53-64) *)

(** [pd.Timestamp("0001-01-01")], tz-naive, in nanoseconds since the epoch:
    719162 days before 1970-01-01. *)
Definition ts_limit : Z := - 719162 * 86400 * 10 ^ 9.

Definition notnull {A} (cells : list (option A)) : list bool :=
  (fun c => match c with Some _ => true | None => false end) <$> cells.

Definition date_notnull (col : DateCol) : list bool :=
  match col with
  | Text cells => notnull cells
  | Datetime _ cells => notnull cells
  end.

(** [col < ts] against a tz-naive Timestamp.  NaT compares false; a tz-aware
    column cannot be ordered against it.  The task only compares a column
    that [to_datetime] has just returned, so never one of text. *)
Definition lt_timestamp (col : DateCol) (ts : Z) : result (list bool) :=
  match col with
  | Datetime Naive cells =>
      Ok ((fun c => match c with Some t => t <? ts | None => false end) <$> cells)
  | _ => Raise TypeError
  end.

(** [df.loc[mask, col] = pd.NaT] *)
Definition put_null {A} (mask : list bool) (cells : list (option A)) : list (option A) :=
  zip_with (fun (m : bool) c => if m then None else c) mask cells.

Definition loc_set_NaT (mask : list bool) (col : DateCol) : DateCol :=
  match col with
  | Text cells => Text (put_null mask cells)
  | Datetime tz cells => Datetime tz (put_null mask cells)
  end.

(** [col.dt.tz_localize("UTC")]: the zone is attached, the stored instants
    stay as they are. *)
Definition tz_localize_UTC (col : DateCol) : result DateCol :=
  match col with
  | Text _ => Raise AttributeError
  | Datetime Naive cells => Ok (Datetime UTC cells)
  | Datetime UTC _ => Raise TypeError
  end.

(** ** Contradictions (lines 70-78) *)

Definition eq_scalar (col : list (option Z)) (k : Z) : list bool :=
  (fun c => match c with Some z => z =? k | None => false end) <$> col.

Definition isin (col : list (option Z)) (ks : list Z) : list bool :=
  (fun c => match c with Some z => existsb (Z.eqb z) ks | None => false end) <$> col.

(** [a & b] on boolean Series *)
Definition band (a b : list bool) : list bool := zip_with andb a b.

Definition gt_cell (a b : option Z) : bool :=
  match a, b with
  | Some x, Some y => y <? x
  | _, _ => false
  end.

(** [a > b] on two date columns; NaT on either side compares false, and a
    tz-aware column cannot be ordered against a tz-naive one.  The task only
    compares columns that its date loop has converted. *)
Definition date_gt (a b : DateCol) : result (list bool) :=
  match a, b with
  | Datetime Naive xs, Datetime Naive ys => Ok (zip_with gt_cell xs ys)
  | Datetime UTC xs, Datetime UTC ys => Ok (zip_with gt_cell xs ys)
  | _, _ => Raise TypeError
  end.

(** [mask.astype(int)] *)
Definition bool_astype_int (mask : list bool) : list Z :=
  (fun b : bool => if b then 1 else 0) <$> mask.

Definition date_columns : list DateField :=
  [F_start_contract; F_last_renewal; F_next_renewal;
   F_birth; F_driving_licence; F_lapse].

(** ** Views used to state the properties *)

(** The instants held by a datetime column. *)
Definition date_cells (col : DateCol) : list (option Z) :=
  match col with
  | Datetime _ cells => cells
  | Text _ => []
  end.

Definition is_aware (col : DateCol) : bool :=
  match col with
  | Datetime UTC _ => true
  | _ => false
  end.

(** The rules of the specification, cell by cell. *)
Definition spec_floor (c : option Z) : option Z :=
  match c with
  | Some t => if t <? ts_limit then None else Some t
  | None => None
  end.

Definition spec_lapse_rule (status lapse : option Z) : option Z :=
  match status, lapse with
  | Some 0, Some _ => None
  | _, _ => lapse
  end.

Definition spec_renewal_rule (status lapse last_renewal : option Z) : option Z :=
  match status, lapse, last_renewal with
  | Some s, Some l, Some r =>
      if ((s =? 1) || (s =? 2)) && (l <? r) then None else Some r
  | _, _, _ => last_renewal
  end.

Definition spec_flag (start_contract last_renewal : option Z) : Z :=
  match start_contract, last_renewal with
  | Some s, Some r => if r <? s then 1 else 0
  | _, _ => 0
  end.

Section Cleaner.

(** [pd.to_datetime(col, errors='coerce', dayfirst=True)] on a column of
    text: the library reads the cell in the light of the whole column (it
    settles on a format from the column before it parses) and gives the
    instant, or nothing when the text is no date.  The column it returns is
    tz-aware when the text carries UTC offsets; a column without any text
    comes back all NaT and tz-naive. *)
Variable parse_dayfirst : list (option string) -> string -> option Z.
Variable zone_dayfirst : list (option string) -> Zone.

Definition text_zone (cells : list (option string)) : Zone :=
  match dropna cells with
  | [] => Naive
  | _ :: _ => zone_dayfirst cells
  end.

Definition to_datetime (col : DateCol) : DateCol :=
  match col with
  | Text cells =>
      Datetime (text_zone cells) ((fun c => c ≫= parse_dayfirst cells) <$> cells)
  | Datetime _ _ => col
  end.

(** The body of the loop over [date_columns]. *)
Definition convert_date_column (f : DateField) (df : DataFrame) : result DataFrame :=
  let df := set_date f (to_datetime (get_date f df)) df in
  let* low := lt_timestamp (get_date f df) ts_limit in
  let df := set_date f (loc_set_NaT low (get_date f df)) df in
  let* utc := tz_localize_UTC (get_date f df) in
  Ok (set_date f utc df).

Definition clean_data (insurance_df : DataFrame) : result DataFrame :=
  let df := insurance_df in
  (* missing values *)
  let df := set_Type_fuel (fillna (Some "Unknown") (Type_fuel df)) df in
  let mean_length := mean (Length df) in
  let df := set_Length (fillna mean_length (Length df)) df in
  (* Distribution_channel *)
  let df := set_Distribution_channel
              (replace_sentinel <$> Distribution_channel df) df in
  let* channel := astype_int (Distribution_channel df) in
  let df := set_Distribution_channel channel df in
  (* dates *)
  let* df := foldM convert_date_column date_columns df in
  (* Lapse = 0 with a lapse date *)
  let no_lapse := band (eq_scalar (Lapse df) 0) (date_notnull (Date_lapse df)) in
  let df := set_date F_lapse (loc_set_NaT no_lapse (Date_lapse df)) df in
  (* Lapse in 1, 2 with a renewal after the lapse *)
  let lapsed := band (isin (Lapse df) [1; 2]) (date_notnull (Date_lapse df)) in
  let* after := date_gt (Date_last_renewal df) (Date_lapse df) in
  let df := set_date F_last_renewal
              (loc_set_NaT (band lapsed after) (Date_last_renewal df)) df in
  let* _ := date_gt (Date_last_renewal df) (Date_lapse df) in
  (* the flag *)
  let* start_after := date_gt (Date_start_contract df) (Date_last_renewal df) in
  let df := set_flag (bool_astype_int start_after) df in
  Ok df.

(** *** The cleaned frame in closed form *)

(** What [to_datetime] leaves in the cells of a column. *)
Definition parsed_cells (col : DateCol) : list (option Z) :=
  match col with
  | Text cells => (fun c => c ≫= parse_dayfirst cells) <$> cells
  | Datetime _ cells => cells
  end.

Definition normalized (f : DateField) (df : DataFrame) : list (option Z) :=
  spec_floor <$> parsed_cells (get_date f df).

Definition lapse_fixed (df : DataFrame) : list (option Z) :=
  put_null (band (eq_scalar (Lapse df) 0) (notnull (normalized F_lapse df)))
           (normalized F_lapse df).

Definition renewal_fixed (df : DataFrame) : list (option Z) :=
  put_null (band (band (isin (Lapse df) [1; 2]) (notnull (lapse_fixed df)))
                 (zip_with gt_cell (normalized F_last_renewal df) (lapse_fixed df)))
           (normalized F_last_renewal df).

Definition cleaned (df : DataFrame) (channel : list Z) : DataFrame :=
  {| Type_fuel := fillna (Some "Unknown") (Type_fuel df);
     Length := fillna (mean (Length df)) (Length df);
     Distribution_channel := ChInt <$> channel;
     Lapse := Lapse df;
     Date_start_contract := Datetime UTC (normalized F_start_contract df);
     Date_last_renewal := Datetime UTC (renewal_fixed df);
     Date_next_renewal := Datetime UTC (normalized F_next_renewal df);
     Date_birth := Datetime UTC (normalized F_birth df);
     Date_driving_licence := Datetime UTC (normalized F_driving_licence df);
     Date_lapse := Datetime UTC (lapse_fixed df);
     flag_invalid_start_vs_last :=
       Some (bool_astype_int
               (zip_with gt_cell (normalized F_start_contract df) (renewal_fixed df))) |}.

End Cleaner.

(** ** A day-first reader for the extract, and sample batches *)

(** The calendar. *)
Definition is_leap (y : Z) : bool :=
  ((y mod 4 =? 0) && negb (y mod 100 =? 0)) || (y mod 400 =? 0).

Definition days_in_month (y m : Z) : Z :=
  match m with
  | 1 | 3 | 5 | 7 | 8 | 10 | 12 => 31
  | 4 | 6 | 9 | 11 => 30
  | 2 => if is_leap y then 29 else 28
  | _ => 0
  end.

(** Days from 1970-01-01 to the civil date [y]-[m]-[d]. *)
Definition days_from_civil (y m d : Z) : Z :=
  let y' := if m <=? 2 then y - 1 else y in
  let era := y' / 400 in
  let yoe := y' - era * 400 in
  let mp := (m + 9) mod 12 in
  let doy := (153 * mp + 2) / 5 + d - 1 in
  let doe := yoe * 365 + yoe / 4 - yoe / 100 + doy in
  era * 146097 + doe - 719468.

Definition ns_per_day : Z := 86400 * 10 ^ 9.

(** The extract writes its dates as DD/MM/YYYY.  On a column whose first
    date is written so, with dayfirst the library settles on the format
    %d/%m/%Y and matches every cell against it: a day of two digits, or of
    one, or of a space and one; a slash; a month of two digits or of one; a
    slash; a year of four digits.  The date has to exist, and its instant,
    at midnight, has to fit the nanoseconds of [datetime64[ns]]; a cell
    that fails any of this is no date.  [parse_dmy] does this.  In a
    column whose first date is written otherwise the library settles on
    another format, or reads cell by cell; [parse_dmy] is no model of that
    and reads nothing there, and the sample batches have no such column. *)
Definition digit_of (c : ascii) : option Z :=
  if is_digit c then Some (digit_val c) else None.

(** The day and the text after its slash. *)
Definition read_day (l : list ascii) : option (Z * list ascii) :=
  match l with
  | a :: b :: l' =>
      if Ascii.eqb b "/"
      then d ← digit_of a; if 1 <=? d then Some (d, l') else None
      else match l' with
           | c :: l'' =>
               if Ascii.eqb c "/" then
                 if Ascii.eqb a " "
                 then d ← digit_of b; if 1 <=? d then Some (d, l'') else None
                 else d1 ← digit_of a; d0 ← digit_of b;
                      let d := 10 * d1 + d0 in
                      if (1 <=? d) && (d <=? 31) then Some (d, l'') else None
               else None
           | [] => None
           end
  | _ => None
  end.

(** The month and the text after its slash. *)
Definition read_month (l : list ascii) : option (Z * list ascii) :=
  match l with
  | a :: b :: l' =>
      if Ascii.eqb b "/"
      then m ← digit_of a; if 1 <=? m then Some (m, l') else None
      else match l' with
           | c :: l'' =>
               if Ascii.eqb c "/" then
                 m1 ← digit_of a; m0 ← digit_of b;
                 let m := 10 * m1 + m0 in
                 if (1 <=? m) && (m <=? 12) then Some (m, l'') else None
               else None
           | [] => None
           end
  | _ => None
  end.

Definition read_year (l : list ascii) : option Z :=
  match l with
  | [a; b; c; d] =>
      y3 ← digit_of a; y2 ← digit_of b; y1 ← digit_of c; y0 ← digit_of d;
      Some (1000 * y3 + 100 * y2 + 10 * y1 + y0)
  | _ => None
  end.

(** The day, month and year of a text that matches %d/%m/%Y and names a
    date that exists. *)
Definition read_dmy (s : string) : option (Z * Z * Z) :=
  '(d, l) ← read_day (list_ascii_of_string s);
  '(m, l) ← read_month l;
  y ← read_year l;
  if (1 <=? y) && (d <=? days_in_month y m) then Some (d, m, y) else None.

Definition first_text (cells : list (option string)) : option string :=
  head (dropna cells).

(** The format is settled on %d/%m/%Y when the first date of the column is
    a day-first date with zero-padded day and month (of ten characters)
    from the year 1000 on. *)
Definition settles_on_dmy (cells : list (option string)) : bool :=
  match first_text cells with
  | Some s =>
      match read_dmy s with
      | Some (_, _, y) => (String.length s =? 10)%nat && (1000 <=? y)
      | None => false
      end
  | None => false
  end.

Definition parse_dmy (cells : list (option string)) (s : string) : option Z :=
  if settles_on_dmy cells then
    '(d, m, y) ← read_dmy s;
    let ns := days_from_civil y m d * ns_per_day in
    if (int64_min <? ns) && (ns <=? int64_max) then Some ns else None
  else None.

(** Such a column has no UTC offset in it. *)
Definition zone_dmy (_ : list (option string)) : Zone := Naive.






(** Three policies: the first lacks fuel type and length and carries the
    channel sentinel; the second lapsed before its last renewal; the third
    is marked as not lapsed but has a lapse date, and started after its last
    renewal. *)
Definition batch3 : DataFrame :=
  {| Type_fuel := [None; Some "P"; Some "D"];
     Length := [None; Some 10%float; Some 20%float];
     Distribution_channel := [ChStr "00/01/1900"; ChStr "1"; ChInt 0];
     Lapse := [Some 0; Some 1; Some 0];
     Date_start_contract := Text [Some "05/11/2015"; Some "01/01/2019"; Some "01/06/2021"];
     Date_last_renewal := Text [Some "05/11/2018"; Some "01/06/2020"; Some "01/01/2021"];
     Date_next_renewal := Text [Some "05/11/2019"; Some "31/02/2021"; Some "01/01/2022"];
     Date_birth := Text [Some "15/04/1956"; Some "00/01/0001"; Some "1975-03-02"];
     Date_driving_licence := Text [Some "20/03/1976"; None; Some "01/01/1600"];
     Date_lapse := Text [None; Some "01/01/2020"; Some "01/01/2020"];
     flag_invalid_start_vs_last := None |}.

(** One policy, complete. *)
Definition batch1 : DataFrame :=
  {| Type_fuel := [Some "P"];
     Length := [Some 4%float];
     Distribution_channel := [ChInt 1];
     Lapse := [Some 0];
     Date_start_contract := Text [Some "05/11/2015"];
     Date_last_renewal := Text [Some "05/11/2018"];
     Date_next_renewal := Text [Some "05/11/2019"];
     Date_birth := Text [Some "15/04/1956"];
     Date_driving_licence := Text [Some "20/03/1976"];
     Date_lapse := Text [None];
     flag_invalid_start_vs_last := None |}.

(** The same policy without a length, without a channel, and with a channel
    that is neither a number nor the sentinel. *)
Definition batch_no_length : DataFrame := set_Length [None] batch1.

Definition batch_null_channel : DataFrame := set_Distribution_channel [ChNull] batch1.



Definition batch_float_channel : DataFrame :=
  set_Distribution_channel [ChFloat 1.5%float] batch1.



Definition huge : float := 0x1.e42d130773b76p+1023%float.


Definition written (r : result DataFrame) (otherwise : DataFrame) : DataFrame :=
  match r with Ok out => out | Raise _ => otherwise end.

Definition cleaned3 : DataFrame :=
  Eval vm_compute in written (clean_data parse_dmy zone_dmy batch3) batch3.

Definition cleaned_no_length : DataFrame :=
  Eval vm_compute in written (clean_data parse_dmy zone_dmy batch_no_length) batch_no_length.





(** ** The frame as a table *)

Definition date_len (col : DateCol) : nat :=
  match col with
  | Text cells => length cells
  | Datetime _ cells => length cells
  end.

(** All columns of a DataFrame have one length, its number of rows. *)
Definition has_rows (n : nat) (df : DataFrame) : Prop :=
  length (Type_fuel df) = n
  /\ length (Length df) = n
  /\ length (Distribution_channel df) = n
  /\ length (Lapse df) = n
  /\ (forall f, date_len (get_date f df) = n)
  /\ (forall flags, flag_invalid_start_vs_last df = Some flags -> length flags = n).

(** ** What the task logs (lines 37, 42, 48, 64, 72, 79, 82, 85) *)

Inductive Dtype : Set :=
  | ObjectDtype
  | DatetimeDtype (tz : Zone).

Definition dtype (col : DateCol) : Dtype :=
  match col with
  | Text _ => ObjectDtype
  | Datetime tz _ => DatetimeDtype tz
  end.

(** One record for each [logging.info] after the frame is copied, with the
    figures its message is formatted from.  The records of reading the CSV
    and of a write that fails are left out with the read and the failing
    write themselves. *)
Inductive LogRecord : Type :=
  | Missing_Type_fuel (nulls : Z)
  | Missing_Length (nulls : Z)
  | Unique_channel (values : list ChannelCell)
  | Converted (col : DateField) (data_type : Dtype) (nulls : Z)
  | Corrected (rows : Z)
  | Flagged (rows : Z)
  | Saving
  | Saved.

(** [col.isnull().sum()] *)
Definition isnull_sum {A} (col : list (option A)) : Z :=
  foldr (fun c n => (match c with None => 1 | Some _ => 0 end) + n) 0 col.

Definition date_isnull_sum (col : DateCol) : Z :=
  match col with
  | Text cells => isnull_sum cells
  | Datetime _ cells => isnull_sum cells
  end.

(** [len(df[mask])] *)
Definition count_true (mask : list bool) : Z :=
  foldr (fun (b : bool) n => (if b then 1 else 0) + n) 0 mask.

(** [col.sum()] *)
Definition Zsum (col : list Z) : Z := foldr Z.add 0 col.

Definition cell_eqb (a b : ChannelCell) : bool :=
  match a, b with
  | ChNull, ChNull => true
  | ChInt x, ChInt y => x =? y
  | ChStr s, ChStr t => String.eqb s t
  | _, _ => false
  end.

(** [col.unique()]: the distinct values, in order of first appearance. *)
Fixpoint unique (col : list ChannelCell) : list ChannelCell :=
  match col with
  | [] => []
  | c :: col' => c :: filter (fun d => negb (cell_eqb c d)) (unique col')
  end.

(** A step of the task: the records it has logged, and its outcome. *)
Definition Logged (A : Type) : Type := list LogRecord * result A.

Definition ret_logged {A} (a : A) : Logged A := ([], Ok a).

Definition bind_logged {A B} (m : Logged A) (k : A -> Logged B) : Logged B :=
  match m with
  | (log, Ok a) => let (log', r) := k a in ((log ++ log')%list, r)
  | (log, Raise e) => (log, Raise e)
  end.

Definition info (r : LogRecord) : Logged unit := ([r], Ok tt).

Definition lift {A} (r : result A) : Logged A := ([], r).

Notation "'do*' x ':=' m 'in' k" := (bind_logged m (fun x => k))
  (at level 10, x name, m at level 100, k at level 200).

Notation "'log*' r 'in' k" := (bind_logged (info r) (fun _ => k))
  (at level 10, r at level 100, k at level 200).

Fixpoint foldM_logged {A S} (f : A -> S -> Logged S) (l : list A) (s : S) : Logged S :=
  match l with
  | [] => ret_logged s
  | x :: l' => do* s' := f x s in foldM_logged f l' s'
  end.

(** ** Writing the Parquet file (line 84) *)

(** [coerce_timestamps="ms"] with [allow_truncated_timestamps=True]: the
    writer divides the nanoseconds by 10^6 with the integer division of C,
    which drops the remainder toward zero, and raises nothing. *)
Definition ns_per_ms : Z := 10 ^ 6.

Definition coerce_ms (ns : Z) : Z := Z.quot ns ns_per_ms.

(** The milliseconds written for a date column. *)
Definition written_ms (col : DateCol) : list (option Z) :=
  (fun c : option Z => coerce_ms <$> c) <$> date_cells col.

Section CleanerLogged.

Variable parse_dayfirst : list (option string) -> string -> option Z.
Variable zone_dayfirst : list (option string) -> Zone.

(** The body of the loop over [date_columns], with line 64. *)
Definition convert_date_column_logged (f : DateField) (df : DataFrame)
  : Logged DataFrame :=
  do* df := lift (convert_date_column parse_dayfirst zone_dayfirst f df) in
  log* Converted f (dtype (get_date f df)) (date_isnull_sum (get_date f df)) in
  ret_logged df.

(** [clean_data] from the copy of the frame to the end, with every record it
    logs on the way. *)
Definition clean_data_logged (insurance_df : DataFrame) : Logged DataFrame :=
  let df := insurance_df in
  let df := set_Type_fuel (fillna (Some "Unknown") (Type_fuel df)) df in
  log* Missing_Type_fuel (isnull_sum (Type_fuel df)) in
  let mean_length := mean (Length df) in
  let df := set_Length (fillna mean_length (Length df)) df in
  log* Missing_Length (isnull_sum (Length df)) in
  let df := set_Distribution_channel
              (replace_sentinel <$> Distribution_channel df) df in
  do* channel := lift (astype_int (Distribution_channel df)) in
  let df := set_Distribution_channel channel df in
  log* Unique_channel (unique (Distribution_channel df)) in
  do* df := foldM_logged convert_date_column_logged date_columns df in
  let no_lapse := band (eq_scalar (Lapse df) 0) (date_notnull (Date_lapse df)) in
  let df := set_date F_lapse (loc_set_NaT no_lapse (Date_lapse df)) df in
  let lapsed := band (isin (Lapse df) [1; 2]) (date_notnull (Date_lapse df)) in
  do* after := lift (date_gt (Date_last_renewal df) (Date_lapse df)) in
  let df := set_date F_last_renewal
              (loc_set_NaT (band lapsed after) (Date_last_renewal df)) df in
  do* still_after := lift (date_gt (Date_last_renewal df) (Date_lapse df)) in
  log* Corrected (count_true still_after) in
  do* start_after := lift (date_gt (Date_start_contract df) (Date_last_renewal df)) in
  let df := set_flag (bool_astype_int start_after) df in
  log* Flagged (match flag_invalid_start_vs_last df with
                | Some flags => Zsum flags
                | None => 0
                end) in
  log* Saving in
  log* Saved in
  ret_logged df.

(** The frame the date loop leaves when it has converted the columns [l]. *)
Definition dates_converted (l : list DateField) (df : DataFrame) : DataFrame :=
  let col f :=
    if existsb (fun g => bool_decide (g = f)) l
    then Datetime UTC (normalized parse_dayfirst f df)
    else get_date f df in
  {| Type_fuel := Type_fuel df; Length := Length df;
     Distribution_channel := Distribution_channel df; Lapse := Lapse df;
     Date_start_contract := col F_start_contract;
     Date_last_renewal := col F_last_renewal;
     Date_next_renewal := col F_next_renewal;
     Date_birth := col F_birth;
     Date_driving_licence := col F_driving_licence;
     Date_lapse := col F_lapse;
     flag_invalid_start_vs_last := flag_invalid_start_vs_last df |}.

(** The records of a run that reaches the end, from the frame [df] it
    started with and the frame [out] it wrote. *)
Definition success_log (df out : DataFrame) : list LogRecord :=
  [Missing_Type_fuel (isnull_sum (Type_fuel out));
   Missing_Length (isnull_sum (Length out));
   Unique_channel (unique (Distribution_channel out))]
  ++ ((fun f => Converted f (DatetimeDtype UTC)
                  (isnull_sum (normalized parse_dayfirst f df)))
        <$> date_columns)
  ++ [Corrected (count_true (zip_with gt_cell (date_cells (Date_last_renewal out))
                                              (date_cells (Date_lapse out))));
      Flagged (match flag_invalid_start_vs_last out with
               | Some flags => Zsum flags
               | None => 0
               end);
      Saving; Saved].

End CleanerLogged.

(** The records of cleaning [batch3]. *)
Definition log3 : list LogRecord :=
  Eval vm_compute in fst (clean_data_logged parse_dmy zone_dmy batch3).

(** A frame without rows, as a CSV with only its header line gives. *)
Definition batch0 : DataFrame :=
  {| Type_fuel := []; Length := []; Distribution_channel := []; Lapse := [];
     Date_start_contract := Text []; Date_last_renewal := Text [];
     Date_next_renewal := Text []; Date_birth := Text [];
     Date_driving_licence := Text []; Date_lapse := Text [];
     flag_invalid_start_vs_last := None |}.

(** * Properties *)

(** ** The error monad *)

Lemma bind_Ok {A B} (m : result A) (k : A -> result B) (b : B) :
  bind m k = Ok b -> exists a, m = Ok a /\ k a = Ok b.
Proof. destruct m as [a|e]; simpl; [eauto | discriminate]. Qed.

Lemma mapM_Ok_lookup {A B} (f : A -> result B) (l : list A) (ys : list B) :
  mapM f l = Ok ys ->
  forall i, match l !! i with
            | Some x => exists y, ys !! i = Some y /\ f x = Ok y
            | None => ys !! i = None
            end.
Proof.
  revert ys. induction l as [|x l IH]; simpl; intros ys H i.
  - injection H as <-. reflexivity.
  - apply bind_Ok in H as (y & Hy & H).
    apply bind_Ok in H as (ys' & Hys & H). injection H as <-.
    destruct i as [|i]; simpl; [eauto | apply IH, Hys].
Qed.

Lemma mapM_Raise {A B} (f : A -> result B) (l : list A) (i : nat) (x : A) (e : exn) :
  l !! i = Some x -> f x = Raise e -> exists e', mapM f l = Raise e'.
Proof.
  revert i. induction l as [|y l IH]; intros [|i] Hi Hx; simpl in *; try discriminate.
  - injection Hi as ->. rewrite Hx. simpl. eauto.
  - destruct (f y); simpl; [| eauto].
    destruct (IH i Hi Hx) as [e' ->]. simpl. eauto.
Qed.

(** ** Masks *)

Lemma put_null_lookup {A} (mask : list bool) (cells : list (option A)) (i : nat) :
  put_null mask cells !! i =
  m ← mask !! i; c ← cells !! i; Some (if m : bool then None else c).
Proof. unfold put_null. apply lookup_zip_with. Qed.

Lemma put_null_fmap {A} (p : option A -> bool) (cells : list (option A)) :
  put_null (p <$> cells) cells = (fun c => if p c then None else c) <$> cells.
Proof.
  unfold put_null. induction cells as [|c cells IH]; simpl; [reflexivity|].
  f_equal. apply IH.
Qed.

Section CleanerFacts.

Variable parse : list (option string) -> string -> option Z.
Variable zone : list (option string) -> Zone.

(** One turn of the date loop: a tz-aware column stops the task, any other
    column ends as UTC instants, floored. *)
Lemma convert_date_column_eq (f : DateField) (df : DataFrame) :
  convert_date_column parse zone f df =
  if is_aware (to_datetime parse zone (get_date f df)) then Raise TypeError
  else Ok (set_date f (Datetime UTC (normalized parse f df)) df).
Proof.
  unfold convert_date_column.
  assert (Hget : forall v d, get_date f (set_date f v d) = v)
    by (intros; destruct f; reflexivity).
  assert (Hset : forall v w d, set_date f v (set_date f w d) = set_date f v d)
    by (intros; destruct f; reflexivity).
  assert (Hfloor : forall cells : list (option Z),
    put_null ((fun c => match c with Some t => t <? ts_limit | None => false end) <$> cells) cells
    = spec_floor <$> cells).
  { intros cells. rewrite put_null_fmap. apply list_fmap_ext.
    intros _ [t|] _; simpl; [destruct (t <? ts_limit)|]; reflexivity. }
  unfold normalized.
  destruct (get_date f df) as [cells | [|] cells]; cbn [to_datetime];
    [destruct (text_zone zone cells)| |]; simpl;
    rewrite ?Hget; simpl; rewrite ?Hget; simpl; rewrite ?Hset, ?Hfloor; reflexivity.
Qed.

Ltac frame_simpl :=
  cbn [Type_fuel Length Distribution_channel Lapse Date_start_contract
       Date_last_renewal Date_next_renewal Date_birth Date_driving_licence
       Date_lapse flag_invalid_start_vs_last get_date set_date set_Type_fuel
       set_Length set_Distribution_channel set_flag].

Lemma clean_data_eq (df : DataFrame) :
  clean_data parse zone df =
  let* channel := mapM astype_int_cell (replace_sentinel <$> Distribution_channel df) in
  if existsb (fun f => is_aware (to_datetime parse zone (get_date f df))) date_columns
  then Raise TypeError
  else Ok (cleaned parse df channel).
Proof.
  unfold clean_data, astype_int. cbv zeta.
  frame_simpl.
  destruct (mapM astype_int_cell _) as [zs|e]; cbn [bind]; [|reflexivity].
  cbn [foldM date_columns existsb].
  rewrite convert_date_column_eq. frame_simpl.
  destruct (is_aware (to_datetime parse zone (Date_start_contract df)));
    cbn [bind orb]; [reflexivity|].
  rewrite convert_date_column_eq. frame_simpl.
  destruct (is_aware (to_datetime parse zone (Date_last_renewal df)));
    cbn [bind orb]; [reflexivity|].
  rewrite convert_date_column_eq. frame_simpl.
  destruct (is_aware (to_datetime parse zone (Date_next_renewal df)));
    cbn [bind orb]; [reflexivity|].
  rewrite convert_date_column_eq. frame_simpl.
  destruct (is_aware (to_datetime parse zone (Date_birth df)));
    cbn [bind orb]; [reflexivity|].
  rewrite convert_date_column_eq. frame_simpl.
  destruct (is_aware (to_datetime parse zone (Date_driving_licence df)));
    cbn [bind orb]; [reflexivity|].
  rewrite convert_date_column_eq. frame_simpl.
  destruct (is_aware (to_datetime parse zone (Date_lapse df)));
    cbn [bind orb]; reflexivity.
Qed.

Lemma clean_data_Ok (df out : DataFrame) :
  clean_data parse zone df = Ok out ->
  exists channel,
    mapM astype_int_cell (replace_sentinel <$> Distribution_channel df) = Ok channel
    /\ existsb (fun f => is_aware (to_datetime parse zone (get_date f df))) date_columns = false
    /\ out = cleaned parse df channel.
Proof.
  rewrite clean_data_eq. intros H.
  apply bind_Ok in H as (zs & Hzs & H). exists zs.
  destruct (existsb _ _); [discriminate|]. injection H as <-. auto.
Qed.

(** *** The rules, row by row *)

Lemma lapse_fixed_lookup (df : DataFrame) (i : nat) :
  lapse_fixed parse df !! i =
  s ← Lapse df !! i; l ← normalized parse F_lapse df !! i; Some (spec_lapse_rule s l).
Proof.
  unfold lapse_fixed, band, eq_scalar, notnull.
  rewrite put_null_lookup, lookup_zip_with, !list_lookup_fmap.
  destruct (Lapse df !! i) as [[s|]|]; simpl; try reflexivity;
    destruct (normalized parse F_lapse df !! i) as [[l|]|]; simpl; try reflexivity;
    destruct s as [|p|p]; reflexivity.
Qed.

Lemma renewal_fixed_lookup (df : DataFrame) (i : nat) :
  renewal_fixed parse df !! i =
  s ← Lapse df !! i; l ← normalized parse F_lapse df !! i;
  r ← normalized parse F_last_renewal df !! i;
  Some (spec_renewal_rule s (spec_lapse_rule s l) r).
Proof.
  unfold renewal_fixed, band, isin, notnull.
  rewrite put_null_lookup, !lookup_zip_with, !list_lookup_fmap, lapse_fixed_lookup.
  destruct (Lapse df !! i) as [s|]; simpl; [|reflexivity].
  destruct (normalized parse F_lapse df !! i) as [l|]; simpl;
    [|destruct s; reflexivity].
  destruct (normalized parse F_last_renewal df !! i) as [r|]; simpl;
    [|destruct s; reflexivity].
  f_equal. unfold spec_renewal_rule, gt_cell.
  destruct s as [s|]; [|destruct l, r; reflexivity].
  rewrite orb_false_r.
  destruct (spec_lapse_rule (Some s) l) as [l'|]; simpl.
  - destruct r as [r|]; [rewrite andb_true_r; reflexivity|].
    rewrite andb_false_r. reflexivity.
  - rewrite andb_false_r. reflexivity.
Qed.

Lemma flag_lookup (df : DataFrame) (i : nat) :
  bool_astype_int (zip_with gt_cell (normalized parse F_start_contract df) (renewal_fixed parse df)) !! i =
  a ← normalized parse F_start_contract df !! i; r ← renewal_fixed parse df !! i;
  Some (spec_flag a r).
Proof.
  unfold bool_astype_int. rewrite list_lookup_fmap, lookup_zip_with.
  destruct (normalized parse F_start_contract df !! i) as [a|]; simpl; [|reflexivity].
  destruct (renewal_fixed parse df !! i) as [r|]; simpl; [|reflexivity].
  destruct a, r; reflexivity.
Qed.

End CleanerFacts.

(** ** Missing values *)

Lemma fillna_lookup {A} (v : option A) (col : list (option A)) (i : nat) :
  fillna v col !! i = (fun c => match c with Some _ => c | None => v end) <$> col !! i.
Proof. unfold fillna. apply list_lookup_fmap. Qed.

Lemma fillna_NaN {A} (col : list (option A)) : fillna None col = col.
Proof.
  unfold fillna. induction col as [|[x|] col IH]; simpl; [reflexivity| |];
    f_equal; apply IH.
Qed.

Lemma fillna_full {A} (v : option A) (col : list (option A)) :
  (forall i, col !! i <> Some None) -> fillna v col = col.
Proof.
  unfold fillna. induction col as [|c col IH]; intros H; simpl; [reflexivity|].
  f_equal.
  - destruct c; [reflexivity|]. destruct (H 0%nat). reflexivity.
  - apply IH. intros i. apply (H (S i)).
Qed.

Lemma dropna_nil {A} (col : list (option A)) :
  dropna col = [] -> forall i c, col !! i = Some c -> c = None.
Proof.
  unfold dropna. induction col as [|[x|] col IH]; simpl; intros H i c Hi.
  - rewrite lookup_nil in Hi. discriminate.
  - discriminate.
  - destruct i; simpl in Hi; [congruence | eauto].
Qed.

Lemma dropna_all_null {A} (col : list (option A)) :
  (forall i c, col !! i = Some c -> c = None) -> dropna col = [].
Proof.
  unfold dropna. induction col as [|[x|] col IH]; simpl; intros H.
  - reflexivity.
  - discriminate (H 0%nat (Some x) eq_refl).
  - apply IH. intros i. apply (H (S i)).
Qed.

Lemma mean_all_null (col : list (option float)) :
  (forall i c, col !! i = Some c -> c = None) -> mean col = None.
Proof. intros H. unfold mean. rewrite dropna_all_null; auto. Qed.



(** ** Text that [int()] rejects *)





(** ** Distribution_channel *)

Lemma to_int64_Ok (z z' : Z) :
  to_int64 z = Ok z' -> z' = z /\ to_int64 z' = Ok z'.
Proof.
  unfold to_int64. destruct (_ && _) eqn:E; [|discriminate].
  intros H. injection H as <-. rewrite E. auto.
Qed.

Lemma wrap64_fits (z : Z) : to_int64 (wrap64 z) = Ok (wrap64 z).
Proof.
  unfold to_int64, wrap64, int64_min, int64_max.
  pose proof (Z.mod_pos_bound (z + 2 ^ 63) (2 ^ 64) eq_refl) as Hb.
  replace ((_ <=? _) && (_ <=? _)) with true; [reflexivity|].
  symmetry. apply andb_true_iff. split; apply Z.leb_le; lia.
Qed.


Lemma float_trunc_fits (x : float) (z : Z) :
  float_trunc x = Some z -> to_int64 z = Ok z.
Proof.
  unfold float_trunc. destruct (float_int x) as [z'|]; [|discriminate].
  intros H. injection H as <-.
  destruct ((int64_min <=? z') && (z' <=? int64_max)) eqn:E.
  - unfold to_int64. rewrite E. reflexivity.
  - reflexivity.
Qed.

Lemma astype_int_cell_fits (c : ChannelCell) (z : Z) :
  astype_int_cell c = Ok z -> to_int64 z = Ok z.
Proof.
  destruct c as [|z0|z0|x|x|s]; simpl; [discriminate| | | | |].
  - intros H. apply to_int64_Ok in H. tauto.
  - intros H. injection H as <-. apply wrap64_fits.
  - destruct (float_trunc x) as [z'|] eqn:E; [|discriminate].
    intros H. injection H as <-. apply (float_trunc_fits _ _ E).
  - unfold py_int_of_float. destruct (float_int x) as [z'|].
    + intros H. apply to_int64_Ok in H. tauto.
    + destruct (is_nan x); discriminate.
  - destruct (py_int s); [|discriminate]. intros H. apply to_int64_Ok in H. tauto.
Qed.

Lemma astype_int_again (col : list ChannelCell) (zs : list Z) :
  mapM astype_int_cell col = Ok zs ->
  mapM astype_int_cell (replace_sentinel <$> (ChInt <$> zs)) = Ok zs.
Proof.
  revert zs. induction col as [|c col IH]; simpl; intros zs H.
  - injection H as <-. reflexivity.
  - apply bind_Ok in H as (z & Hz & H).
    apply bind_Ok in H as (zs' & Hzs & H). injection H as <-.
    rewrite !fmap_cons. cbn [mapM replace_sentinel astype_int_cell].
    rewrite (astype_int_cell_fits _ _ Hz), (IH _ Hzs). reflexivity.
Qed.

Lemma spec_flag_cases (a r : option Z) :
  (spec_flag a r = 0 \/ spec_flag a r = 1)
  /\ (spec_flag a r = 1 <-> exists x y, a = Some x /\ r = Some y /\ y < x)
  /\ (a = None \/ r = None -> spec_flag a r = 0).
Proof.
  destruct a as [x|], r as [y|]; simpl.
  - destruct (Z.ltb_spec y x) as [Hlt|Hge].
    + split; [auto|]. split; [|intros [?|?]; discriminate].
      split; [|reflexivity]. intros _. exists x, y. auto.
    + split; [auto|]. split; [|reflexivity].
      split; [discriminate|].
      intros (x' & y' & Hx & Hy & Hlt). injection Hx as <-. injection Hy as <-. lia.
  - split; [auto|]. split; [|reflexivity].
    split; [discriminate | intros (? & ? & _ & ? & _); discriminate].
  - split; [auto|]. split; [|reflexivity].
    split; [discriminate | intros (? & ? & ? & _); discriminate].
  - split; [auto|]. split; [|reflexivity].
    split; [discriminate | intros (? & ? & ? & _); discriminate].
Qed.

Lemma spec_floor_Some (p : option Z) (t : Z) :
  spec_floor p = Some t -> p = Some t /\ ts_limit <= t.
Proof.
  destruct p as [x|]; simpl; [|discriminate].
  destruct (Z.ltb_spec x ts_limit) as [Hlt|Hge]; [discriminate|].
  intros Heq. injection Heq as <-. auto.
Qed.

Lemma spec_lapse_rule_keeps (s l : option Z) :
  spec_lapse_rule s l = None \/ spec_lapse_rule s l = l.
Proof. destruct s as [[|?|?]|], l; simpl; auto. Qed.

Lemma spec_renewal_rule_keeps (s l r : option Z) :
  spec_renewal_rule s l r = None \/ spec_renewal_rule s l r = r.
Proof.
  destruct s as [s|], l as [l|], r as [r|]; simpl; auto.
  destruct (_ && _); auto.
Qed.

(** ** The calendar and the DD/MM/YYYY reader *)










Section CleanerClaims.

Variable parse : list (option string) -> string -> option Z.
Variable zone : list (option string) -> Zone.

Ltac invert_clean H :=
  let zs := fresh "channel" in
  let Hzs := fresh "Hchannel" in
  let Haware := fresh "Hnaive" in
  apply clean_data_Ok in H as (zs & Hzs & Haware & ->);
  unfold cleaned; cbn [Type_fuel Length Distribution_channel Lapse
    Date_start_contract Date_last_renewal Date_next_renewal Date_birth
    Date_driving_licence Date_lapse flag_invalid_start_vs_last get_date date_cells].

(** C9.  A null [Type_fuel] becomes the text [Unknown], any other value is
    kept, and no row of a cleaned batch has a null [Type_fuel]. *)
Theorem type_fuel_unknown_for_null (df out : DataFrame) :
  clean_data parse zone df = Ok out ->
  forall i,
    (Type_fuel df !! i = Some None -> Type_fuel out !! i = Some (Some "Unknown"))
    /\ (forall s, Type_fuel df !! i = Some (Some s) -> Type_fuel out !! i = Some (Some s))
    /\ Type_fuel out !! i <> Some None.
Proof.
  intros H i. invert_clean H. rewrite fillna_lookup.
  destruct (Type_fuel df !! i) as [[s|]|]; simpl; repeat split; congruence.
Qed.


(** C1, as the code has it.  When every [Length] of the batch is null the
    mean is NaN, filling with it leaves every [Length] null, and the task
    still writes its output whenever the channel conversion and the date
    loop go through: the length step raises nothing. *)
Theorem all_null_length_is_written_null (df : DataFrame) :
  (forall i c, Length df !! i = Some c -> c = None) ->
  mean (Length df) = None
  /\ (forall out, clean_data parse zone df = Ok out -> Length out = Length df)
  /\ (forall channel,
        mapM astype_int_cell (replace_sentinel <$> Distribution_channel df) = Ok channel ->
        existsb (fun f => is_aware (to_datetime parse zone (get_date f df))) date_columns = false ->
        exists out, clean_data parse zone df = Ok out /\ Length out = Length df).
Proof.
  intros Hnull. apply mean_all_null in Hnull. split; [exact Hnull|]. split.
  - intros out H. invert_clean H. rewrite Hnull. apply fillna_NaN.
  - intros channel Hch Hnaive. exists (cleaned parse df channel).
    rewrite clean_data_eq, Hch. cbn [bind]. rewrite Hnaive. split; [reflexivity|].
    unfold cleaned; simpl. rewrite Hnull. apply fillna_NaN.
Qed.

(** C8, as the code has it.  The task cannot be run on its own output: a
    cleaned batch passes the two [fillna] and the channel conversion
    unchanged, and then the date loop raises [TypeError] on the first
    column, which is already tz-aware; nothing is written. *)
Theorem second_pass_stops_at_dates (df out : DataFrame) :
  clean_data parse zone df = Ok out ->
  fillna (Some "Unknown") (Type_fuel out) = Type_fuel out
  /\ fillna (mean (Length out)) (Length out) = Length out
  /\ astype_int (replace_sentinel <$> Distribution_channel out)
     = Ok (Distribution_channel out)
  /\ clean_data parse zone out = Raise TypeError.
Proof.
  intros H. invert_clean H. repeat split.
  - apply fillna_full. intros i. rewrite fillna_lookup.
    destruct (Type_fuel df !! i) as [[s|]|]; simpl; congruence.
  - destruct (mean (Length df)) as [m|] eqn:Hm.
    + apply fillna_full. intros i. rewrite fillna_lookup.
      destruct (Length df !! i) as [[s|]|]; simpl; congruence.
    + rewrite fillna_NaN, Hm. apply fillna_NaN.
  - unfold astype_int. rewrite (astype_int_again _ _ Hchannel). reflexivity.
  - rewrite clean_data_eq. cbn [Distribution_channel cleaned].
    rewrite (astype_int_again _ _ Hchannel). reflexivity.
Qed.

(** C3.  In a cleaned batch a row whose [Lapse] is 0 has no lapse date:
    whatever date the row came with is replaced by NaT. *)
Theorem no_lapse_date_when_not_lapsed (df out : DataFrame) :
  clean_data parse zone df = Ok out ->
  Date_lapse out = Datetime UTC (date_cells (Date_lapse out))
  /\ (forall i lapse,
        Lapse out !! i = Some (Some 0) ->
        date_cells (Date_lapse out) !! i = Some lapse -> lapse = None)
  /\ (forall i l,
        Lapse df !! i = Some (Some 0) ->
        normalized parse F_lapse df !! i = Some l ->
        date_cells (Date_lapse out) !! i = Some None).
Proof.
  intros H. invert_clean H. split; [reflexivity|]. split.
  - intros i lapse Hs. rewrite lapse_fixed_lookup, Hs. simpl.
    destruct (normalized parse F_lapse df !! i) as [[l|]|]; simpl; congruence.
  - intros i l Hs Hl. rewrite lapse_fixed_lookup, Hs, Hl. destruct l; reflexivity.
Qed.

(** C2.  In a cleaned batch a row whose [Lapse] is 1 or 2 and whose lapse
    date is set has no last renewal after that date.  The renewal rule
    works on the lapse date left by the rule for [Lapse] 0, puts NaT in
    the last renewal and leaves the lapse date alone, and does nothing
    when either date is NaT. *)
Theorem no_renewal_after_lapse (df out : DataFrame) :
  clean_data parse zone df = Ok out ->
  (forall i s l r,
     Lapse out !! i = Some (Some s) -> s = 1 \/ s = 2 ->
     date_cells (Date_lapse out) !! i = Some (Some l) ->
     date_cells (Date_last_renewal out) !! i = Some r ->
     r = None \/ exists t, r = Some t /\ t <= l)
  /\ (forall i s l r,
       Lapse df !! i = Some s ->
       normalized parse F_lapse df !! i = Some l ->
       normalized parse F_last_renewal df !! i = Some r ->
       date_cells (Date_lapse out) !! i = Some (spec_lapse_rule s l)
       /\ date_cells (Date_last_renewal out) !! i
          = Some (spec_renewal_rule s (spec_lapse_rule s l) r)
       /\ (spec_lapse_rule s l = None \/ r = None ->
           date_cells (Date_last_renewal out) !! i = Some r)).
Proof.
  intros H. invert_clean H. split.
  - intros i s l r Hs Hs12. rewrite lapse_fixed_lookup, renewal_fixed_lookup, Hs.
    simpl.
    destruct (normalized parse F_lapse df !! i) as [l0|]; simpl; [|discriminate].
    intros Hl. injection Hl as Hl. rewrite Hl.
    destruct (normalized parse F_last_renewal df !! i) as [r0|]; simpl; [|discriminate].
    intros Hr. injection Hr as <-.
    destruct r0 as [t|]; simpl; [|auto].
    destruct Hs12 as [-> | ->]; simpl;
      (destruct (l <? t) eqn:E; [auto | right; exists t; split; [reflexivity | lia]]).
  - intros i s l r Hs Hl Hr.
    rewrite lapse_fixed_lookup, renewal_fixed_lookup, Hs, Hl, Hr. simpl.
    repeat split.
    intros [-> | ->]; [destruct s | destruct s, (spec_lapse_rule _ l)]; reflexivity.
Qed.

(** C4.  Every row of a cleaned batch carries the flag, an integer that is
    1 exactly when both the start of the contract and the last renewal are
    set and the start is the later one, and 0 otherwise; the two date
    columns are those the earlier rules left. *)
Theorem flag_marks_start_after_renewal (df out : DataFrame) :
  clean_data parse zone df = Ok out ->
  exists flags,
    flag_invalid_start_vs_last out = Some flags
    /\ date_cells (Date_start_contract out) = normalized parse F_start_contract df
    /\ date_cells (Date_last_renewal out) = renewal_fixed parse df
    /\ forall i a r,
         date_cells (Date_start_contract out) !! i = Some a ->
         date_cells (Date_last_renewal out) !! i = Some r ->
         exists fl,
           flags !! i = Some fl
           /\ (fl = 0 \/ fl = 1)
           /\ (fl = 1 <-> exists x y, a = Some x /\ r = Some y /\ y < x)
           /\ (a = None \/ r = None -> fl = 0).
Proof.
  intros H. invert_clean H. eexists. split; [reflexivity|].
  split; [reflexivity|]. split; [reflexivity|].
  intros i a r Ha Hr. rewrite flag_lookup, Ha, Hr. simpl.
  exists (spec_flag a r). split; [reflexivity|].
  apply spec_flag_cases.
Qed.

Lemma cleaned_date_lookup (df : DataFrame) (channel : list Z)
      (f : DateField) (i : nat) (c : option Z) :
  date_cells (get_date f (cleaned parse df channel)) !! i = Some c ->
  exists p,
    parsed_cells parse (get_date f df) !! i = Some p
    /\ (c = None \/ c = spec_floor p)
    /\ (f <> F_lapse -> f <> F_last_renewal -> c = spec_floor p).
Proof.
  assert (Hn : forall g c', normalized parse g df !! i = Some c' ->
    exists p, parsed_cells parse (get_date g df) !! i = Some p
              /\ c' = spec_floor p).
  { intros g c'. unfold normalized. rewrite list_lookup_fmap.
    destruct (_ !! i) as [p|]; simpl; [|discriminate].
    intros H. injection H as <-. eauto. }
  destruct f; cbn [get_date cleaned date_cells Date_start_contract
    Date_last_renewal Date_next_renewal Date_birth Date_driving_licence Date_lapse];
    intros H.
  - apply Hn in H as (p & Hp & ->). eauto.
  - rewrite renewal_fixed_lookup in H.
    destruct (Lapse df !! i) as [s|]; simpl in H; [|discriminate].
    destruct (normalized parse F_lapse df !! i) as [l|]; simpl in H; [|discriminate].
    destruct (normalized parse F_last_renewal df !! i) as [r|] eqn:Hr; simpl in H;
      [|discriminate].
    injection H as <-. apply Hn in Hr as (p & Hp & ->).
    exists p. split; [exact Hp|]. split; [apply spec_renewal_rule_keeps | congruence].
  - apply Hn in H as (p & Hp & ->). eauto.
  - apply Hn in H as (p & Hp & ->). eauto.
  - apply Hn in H as (p & Hp & ->). eauto.
  - rewrite lapse_fixed_lookup in H.
    destruct (Lapse df !! i) as [s|]; simpl in H; [|discriminate].
    destruct (normalized parse F_lapse df !! i) as [l|] eqn:Hl; simpl in H; [|discriminate].
    injection H as <-. apply Hn in Hl as (p & Hp & ->).
    exists p. split; [exact Hp|]. split; [apply spec_lapse_rule_keeps | congruence].
Qed.



(** C10.  A null [Distribution_channel] in any row stops the whole task
    before anything is written: the conversion to integers has no value
    for it. *)
Theorem null_channel_stops_the_task (df : DataFrame) (i : nat) :
  Distribution_channel df !! i = Some ChNull ->
  exists e, clean_data parse zone df = Raise e.
Proof.
  intros Hi. rewrite clean_data_eq.
  destruct (mapM_Raise astype_int_cell
              (replace_sentinel <$> Distribution_channel df) i ChNull ValueError)
    as [e ->].
  - rewrite list_lookup_fmap, Hi. reflexivity.
  - reflexivity.
  - simpl. eauto.
Qed.

End CleanerClaims.

(** ** The sample batches *)

(** The reader takes the day first, and reads the whole column in the layout
    of its first text. *)
Example parse_dmy_day_first :
  parse_dmy [Some "05/11/2015"] "05/11/2015"
  = Some (days_from_civil 2015 11 5 * ns_per_day)
  /\ parse_dmy [Some "05/11/2015"] "11/05/2015"
     = Some (days_from_civil 2015 5 11 * ns_per_day)
  /\ parse_dmy [Some "05/11/2015"] "5/11/2015"
     = Some (days_from_civil 2015 11 5 * ns_per_day)
  /\ parse_dmy [Some "05/11/2015"] "11/25/2015" = None
  /\ parse_dmy [Some "05/11/2015"] "31/02/2021" = None
  /\ parse_dmy [Some "05/11/2015"] "00/01/0001" = None
  /\ parse_dmy [Some "05/11/2015"] "2015-11-05" = None
  /\ parse_dmy [None; Some "2015-11-05"] "05/11/2015" = None.
Proof. repeat split. Qed.

Example ts_limit_is_year_one : ts_limit = days_from_civil 1 1 1 * ns_per_day.
Proof. reflexivity. Qed.

Example ts_limit_below_int64 : ts_limit < int64_min.
Proof. reflexivity. Qed.

Example py_int_samples :
  py_int "12" = Some 12 /\ py_int " -7 " = Some (-7) /\ py_int "1_000" = Some 1000
  /\ py_int "" = None /\ py_int "1.5" = None /\ py_int sentinel = None
  /\ py_int (String (ascii_of_nat 28) "5") = None
  /\ py_int (String (ascii_of_nat 12) "5") = Some 5.
Proof. repeat split. Qed.

Example astype_int_samples :
  astype_int_cell (ChUInt (2 ^ 64 - 1)) = Ok (-1)
  /\ astype_int_cell (ChInt (2 ^ 63)) = Raise OverflowError
  /\ astype_int_cell (ChFloat 1.5%float) = Ok 1
  /\ astype_int_cell (ChFloat (-1.5)%float) = Ok (-1)
  /\ astype_int_cell (ChFloat 0x1p+63%float) = Ok int64_min
  /\ astype_int_cell (ChFloat infinity) = Raise ValueError
  /\ astype_int_cell (ChFloat nan) = Raise ValueError
  /\ astype_int_cell (ChFloatObj (-1.5)%float) = Ok (-1)
  /\ astype_int_cell (ChFloatObj 0x1p+63%float) = Raise OverflowError
  /\ astype_int_cell (ChFloatObj infinity) = Raise OverflowError
  /\ astype_int_cell (ChFloatObj nan) = Raise ValueError.
Proof. repeat split. Qed.

(** The mean is the float one: the sum is rounded, and it can leave the
    range of the values. *)
Example mean_samples :
  mean [Some 10%float; None; Some 20%float] = Some 15%float
  /\ mean [Some 0x1.999999999999ap-4%float; Some 0x1.999999999999ap-3%float; None]
     = Some 0x1.3333333333334p-3%float
  /\ mean [Some huge; Some huge; None] = Some infinity
  /\ mean [Some infinity; Some neg_infinity; None] = None
  /\ mean [None; None] = None
  /\ mean [] = None.
Proof. repeat split. Qed.

(** The first policy of [batch3] gets the fuel type [Unknown] and the mean
    length 15, and its channel sentinel becomes 0. *)
Example batch3_first_row :
  clean_data parse_dmy zone_dmy batch3 = Ok cleaned3
  /\ Type_fuel cleaned3 !! 0%nat = Some (Some "Unknown")
  /\ Length cleaned3 !! 0%nat = Some (Some 15%float)
  /\ Distribution_channel cleaned3 !! 0%nat = Some (ChInt 0).
Proof. split; [vm_compute; reflexivity|]. repeat split. Qed.

(** The second policy lapsed on 2020-01-01 and was renewed on 2020-06-01:
    the renewal is dropped.  The third is not lapsed and loses its lapse
    date; it started after its last renewal and is flagged. *)
Example batch3_contradictions :
  date_cells (Date_last_renewal cleaned3) !! 1%nat = Some None
  /\ date_cells (Date_lapse cleaned3) !! 1%nat
     = Some (Some (days_from_civil 2020 1 1 * ns_per_day))
  /\ date_cells (Date_lapse cleaned3) !! 2%nat = Some None
  /\ flag_invalid_start_vs_last cleaned3 = Some [0; 0; 1].
Proof. repeat split. Qed.

(** ** Instances of the theorems *)

Lemma type_fuel_unknown_for_null_witness :
  clean_data parse_dmy zone_dmy batch3 = Ok cleaned3
  /\ forall i,
       (Type_fuel batch3 !! i = Some None ->
        Type_fuel cleaned3 !! i = Some (Some "Unknown"))
       /\ (forall s, Type_fuel batch3 !! i = Some (Some s) ->
           Type_fuel cleaned3 !! i = Some (Some s))
       /\ Type_fuel cleaned3 !! i <> Some None.
Proof.
  split; [vm_compute; reflexivity|].
  apply (type_fuel_unknown_for_null parse_dmy zone_dmy batch3 cleaned3).
  vm_compute; reflexivity.
Defined.



Lemma all_null_length_is_written_null_witness :
  mean (Length batch_no_length) = None
  /\ (forall out, clean_data parse_dmy zone_dmy batch_no_length = Ok out ->
      Length out = Length batch_no_length)
  /\ (forall channel,
        mapM astype_int_cell (replace_sentinel <$> Distribution_channel batch_no_length)
        = Ok channel ->
        existsb (fun f => is_aware (to_datetime parse_dmy zone_dmy
                                      (get_date f batch_no_length)))
          date_columns = false ->
        exists out, clean_data parse_dmy zone_dmy batch_no_length = Ok out
                    /\ Length out = Length batch_no_length).
Proof.
  apply (all_null_length_is_written_null parse_dmy zone_dmy batch_no_length).
  intros [|i] c; simpl; intros H; [injection H as <-; reflexivity | discriminate].
Defined.

(** C1 fails on the code: the batch with one policy and no length is
    cleaned and written, its [Length] still null. *)
Lemma all_null_length_not_rejected :
  (forall i c, Length batch_no_length !! i = Some c -> c = None)
  /\ clean_data parse_dmy zone_dmy batch_no_length = Ok cleaned_no_length
  /\ Length cleaned_no_length = [None]
  /\ ~ (exists e, clean_data parse_dmy zone_dmy batch_no_length = Raise e).
Proof.
  split.
  { intros [|i] c; simpl; intros H; [injection H as <-; reflexivity | discriminate]. }
  split; [vm_compute; reflexivity|]. split; [reflexivity|].
  intros [e He]. vm_compute in He. discriminate.
Qed.

Lemma second_pass_stops_at_dates_witness :
  clean_data parse_dmy zone_dmy batch3 = Ok cleaned3
  /\ fillna (Some "Unknown") (Type_fuel cleaned3) = Type_fuel cleaned3
  /\ fillna (mean (Length cleaned3)) (Length cleaned3) = Length cleaned3
  /\ astype_int (replace_sentinel <$> Distribution_channel cleaned3)
     = Ok (Distribution_channel cleaned3)
  /\ clean_data parse_dmy zone_dmy cleaned3 = Raise TypeError.
Proof.
  split; [vm_compute; reflexivity|].
  apply (second_pass_stops_at_dates parse_dmy zone_dmy batch3 cleaned3).
  vm_compute; reflexivity.
Defined.

(** C8 fails on the code: cleaning the cleaned [batch3] raises, it does not
    give [cleaned3] back. *)
Lemma cleaning_twice_is_not_identity :
  clean_data parse_dmy zone_dmy batch3 = Ok cleaned3
  /\ clean_data parse_dmy zone_dmy cleaned3 = Raise TypeError
  /\ clean_data parse_dmy zone_dmy cleaned3 <> Ok cleaned3.
Proof.
  split; [vm_compute; reflexivity|]. split; [vm_compute; reflexivity|].
  intros H. vm_compute in H. discriminate.
Qed.

Lemma no_lapse_date_when_not_lapsed_witness :
  clean_data parse_dmy zone_dmy batch3 = Ok cleaned3
  /\ Date_lapse cleaned3 = Datetime UTC (date_cells (Date_lapse cleaned3))
  /\ (forall i lapse,
        Lapse cleaned3 !! i = Some (Some 0) ->
        date_cells (Date_lapse cleaned3) !! i = Some lapse -> lapse = None)
  /\ (forall i l,
        Lapse batch3 !! i = Some (Some 0) ->
        normalized parse_dmy F_lapse batch3 !! i = Some l ->
        date_cells (Date_lapse cleaned3) !! i = Some None).
Proof.
  split; [vm_compute; reflexivity|].
  apply (no_lapse_date_when_not_lapsed parse_dmy zone_dmy batch3 cleaned3).
  vm_compute; reflexivity.
Defined.

Lemma no_renewal_after_lapse_witness :
  clean_data parse_dmy zone_dmy batch3 = Ok cleaned3
  /\ (forall i s l r,
        Lapse cleaned3 !! i = Some (Some s) -> s = 1 \/ s = 2 ->
        date_cells (Date_lapse cleaned3) !! i = Some (Some l) ->
        date_cells (Date_last_renewal cleaned3) !! i = Some r ->
        r = None \/ exists t, r = Some t /\ t <= l)
  /\ (forall i s l r,
        Lapse batch3 !! i = Some s ->
        normalized parse_dmy F_lapse batch3 !! i = Some l ->
        normalized parse_dmy F_last_renewal batch3 !! i = Some r ->
        date_cells (Date_lapse cleaned3) !! i = Some (spec_lapse_rule s l)
        /\ date_cells (Date_last_renewal cleaned3) !! i
           = Some (spec_renewal_rule s (spec_lapse_rule s l) r)
        /\ (spec_lapse_rule s l = None \/ r = None ->
            date_cells (Date_last_renewal cleaned3) !! i = Some r)).
Proof.
  split; [vm_compute; reflexivity|].
  apply (no_renewal_after_lapse parse_dmy zone_dmy batch3 cleaned3).
  vm_compute; reflexivity.
Defined.

Lemma flag_marks_start_after_renewal_witness :
  clean_data parse_dmy zone_dmy batch3 = Ok cleaned3
  /\ exists flags,
       flag_invalid_start_vs_last cleaned3 = Some flags
       /\ date_cells (Date_start_contract cleaned3)
          = normalized parse_dmy F_start_contract batch3
       /\ date_cells (Date_last_renewal cleaned3) = renewal_fixed parse_dmy batch3
       /\ forall i a r,
            date_cells (Date_start_contract cleaned3) !! i = Some a ->
            date_cells (Date_last_renewal cleaned3) !! i = Some r ->
            exists fl,
              flags !! i = Some fl
              /\ (fl = 0 \/ fl = 1)
              /\ (fl = 1 <-> exists x y, a = Some x /\ r = Some y /\ y < x)
              /\ (a = None \/ r = None -> fl = 0).
Proof.
  split; [vm_compute; reflexivity|].
  apply (flag_marks_start_after_renewal parse_dmy zone_dmy batch3 cleaned3).
  vm_compute; reflexivity.
Defined.




Lemma null_channel_stops_the_task_witness :
  Distribution_channel batch_null_channel !! 0%nat = Some ChNull
  /\ exists e, clean_data parse_dmy zone_dmy batch_null_channel = Raise e.
Proof.
  split; [reflexivity|].
  apply (null_channel_stops_the_task parse_dmy zone_dmy batch_null_channel 0%nat).
  reflexivity.
Defined.

(** * Further properties of the task *)

(** ** Conversions over a column *)

Lemma mapM_length {A B} (f : A -> result B) (l : list A) (ys : list B) :
  mapM f l = Ok ys -> length ys = length l.
Proof.
  revert ys. induction l as [|x l IH]; simpl; intros ys H.
  - injection H as <-. reflexivity.
  - apply bind_Ok in H as (y & _ & H).
    apply bind_Ok in H as (ys' & Hys & H). injection H as <-.
    simpl. f_equal. apply IH, Hys.
Qed.

Lemma to_int64_spec (z : Z) :
  (int64_min <= z <= int64_max -> to_int64 z = Ok z)
  /\ (forall z', to_int64 z = Ok z' -> z' = z /\ int64_min <= z <= int64_max)
  /\ (forall e, to_int64 z = Raise e -> e = OverflowError /\ ~ int64_min <= z <= int64_max).
Proof.
  unfold to_int64. destruct (_ && _) eqn:E.
  - apply andb_true_iff in E as [Hlo Hhi].
    apply Z.leb_le in Hlo. apply Z.leb_le in Hhi.
    split; [reflexivity|]. split; [|discriminate].
    intros z' Hz. injection Hz as <-. auto.
  - apply andb_false_iff in E as E.
    assert (Hout : ~ int64_min <= z <= int64_max).
    { intros [Hlo Hhi]. apply Z.leb_le in Hlo. apply Z.leb_le in Hhi.
      destruct E as [E|E]; congruence. }
    split; [tauto|]. split; [discriminate|].
    intros e He. injection He as <-. auto.
Qed.

(** ** Row counts *)

Lemma put_null_length {A} (mask : list bool) (cells : list (option A)) :
  length (put_null mask cells) = Nat.min (length mask) (length cells).
Proof. unfold put_null. apply length_zip_with. Qed.

Section CleanerExtras.

Variable parse : list (option string) -> string -> option Z.
Variable zone : list (option string) -> Zone.

Lemma normalized_length (f : DateField) (df : DataFrame) :
  length (normalized parse f df) = date_len (get_date f df).
Proof.
  unfold normalized, parsed_cells, date_len.
  destruct (get_date f df); rewrite ?length_fmap; reflexivity.
Qed.

Lemma lapse_fixed_length (n : nat) (df : DataFrame) :
  has_rows n df -> length (lapse_fixed parse df) = n.
Proof.
  intros (_ & _ & _ & HL & Hd & _). unfold lapse_fixed, band, eq_scalar, notnull.
  rewrite put_null_length, length_zip_with, !length_fmap, normalized_length, Hd, HL.
  lia.
Qed.

Lemma renewal_fixed_length (n : nat) (df : DataFrame) :
  has_rows n df -> length (renewal_fixed parse df) = n.
Proof.
  intros H. pose proof (lapse_fixed_length n df H) as Hl.
  destruct H as (_ & _ & _ & HL & Hd & _). unfold renewal_fixed, band, isin, notnull.
  rewrite put_null_length, !length_zip_with, !length_fmap, Hl,
    normalized_length, Hd, HL.
  lia.
Qed.

Lemma cleaned_has_rows (n : nat) (df : DataFrame) (channel : list Z) :
  has_rows n df -> length channel = n ->
  has_rows n (cleaned parse df channel)
  /\ length (bool_astype_int
               (zip_with gt_cell (normalized parse F_start_contract df)
                                 (renewal_fixed parse df))) = n.
Proof.
  intros Hrows Hchannel.
  pose proof (lapse_fixed_length n df Hrows) as Hl.
  pose proof (renewal_fixed_length n df Hrows) as Hr.
  destruct Hrows as (Htf & Hlen & Hch & HL & Hd & Hfl).
  assert (Hflag : length (bool_astype_int
            (zip_with gt_cell (normalized parse F_start_contract df)
                              (renewal_fixed parse df))) = n).
  { unfold bool_astype_int.
    rewrite length_fmap, length_zip_with, normalized_length, Hd, Hr. lia. }
  split; [|exact Hflag].
  unfold has_rows, cleaned, fillna; simpl.
  rewrite !length_fmap.
  repeat split; try congruence.
  intros []; simpl; rewrite ?normalized_length, ?Hd; auto.
Qed.

(** The cleaned frame has the rows of the frame it was made from: every
    column keeps its length, and the flag column is there with one entry
    for each row. *)
Theorem clean_data_keeps_rows (n : nat) (df out : DataFrame) :
  has_rows n df ->
  clean_data parse zone df = Ok out ->
  has_rows n out
  /\ Lapse out = Lapse df
  /\ exists flags, flag_invalid_start_vs_last out = Some flags /\ length flags = n.
Proof.
  intros Hrows H.
  apply clean_data_Ok in H as (channel & Hchannel & _ & ->).
  apply mapM_length in Hchannel. rewrite length_fmap in Hchannel.
  destruct (cleaned_has_rows n df channel Hrows) as [Hout Hflag].
  { rewrite Hchannel. apply Hrows. }
  split; [exact Hout|]. split; [reflexivity|].
  eexists. split; [reflexivity | exact Hflag].
Qed.

(** ** The channel written *)

Lemma no_aware_column (df : DataFrame) :
  existsb (fun f => is_aware (to_datetime parse zone (get_date f df))) date_columns = false
  <-> forall f, is_aware (to_datetime parse zone (get_date f df)) = false.
Proof.
  simpl. rewrite !orb_false_iff. split.
  - intros (? & ? & ? & ? & ? & ? & _) []; assumption.
  - intros H.
    pose proof (H F_start_contract). pose proof (H F_last_renewal).
    pose proof (H F_next_renewal). pose proof (H F_birth).
    pose proof (H F_driving_licence). pose proof (H F_lapse). auto 10.
Qed.

(** Every [Distribution_channel] of a cleaned batch is an integer of the
    int64 range. *)
Theorem cleaned_channel_is_int64 (df out : DataFrame) :
  clean_data parse zone df = Ok out ->
  forall i c,
    Distribution_channel out !! i = Some c ->
    exists z, c = ChInt z /\ int64_min <= z <= int64_max.
Proof.
  intros H i c Hi.
  apply clean_data_Ok in H as (channel & Hchannel & _ & ->).
  cbn [Distribution_channel cleaned] in Hi. rewrite list_lookup_fmap in Hi.
  destruct (channel !! i) as [z|] eqn:Hz; simpl in Hi; [|discriminate].
  injection Hi as <-. exists z. split; [reflexivity|].
  pose proof (mapM_Ok_lookup _ _ _ Hchannel i) as Hrow.
  destruct ((replace_sentinel <$> Distribution_channel df) !! i) as [c0|];
    [|congruence].
  destruct Hrow as (z' & Hz' & Hc0). rewrite Hz in Hz'. injection Hz' as <-.
  apply astype_int_cell_fits, to_int64_spec in Hc0. tauto.
Qed.

(** ** The two corrections *)

(** The two corrections never fall on one row: a row loses its lapse date
    or its last renewal, never both, and a row whose [Lapse] is none of 0,
    1, 2 keeps both. *)
Theorem corrections_fall_on_different_rows (df out : DataFrame) :
  clean_data parse zone df = Ok out ->
  forall i s l r l' r',
    Lapse df !! i = Some s ->
    normalized parse F_lapse df !! i = Some l ->
    normalized parse F_last_renewal df !! i = Some r ->
    date_cells (Date_lapse out) !! i = Some l' ->
    date_cells (Date_last_renewal out) !! i = Some r' ->
    (l' = l \/ r' = r)
    /\ (s <> Some 0 -> l' = l)
    /\ (s <> Some 1 -> s <> Some 2 -> r' = r).
Proof.
  intros H i s l r l' r' Hs Hl Hr.
  apply clean_data_Ok in H as (channel & _ & _ & ->).
  cbn [Date_lapse Date_last_renewal cleaned date_cells].
  rewrite lapse_fixed_lookup, renewal_fixed_lookup, Hs, Hl, Hr. simpl.
  intros Hl' Hr'. injection Hl' as <-. injection Hr' as <-.
  destruct s as [s|]; [|destruct l, r; simpl; auto].
  destruct (Z.eq_dec s 0) as [->|H0].
  - destruct l, r; simpl; repeat split; auto; congruence.
  - assert (Hkeep : spec_lapse_rule (Some s) l = l)
      by (destruct s, l; simpl; congruence).
    rewrite Hkeep. split; [auto|]. split; [auto|].
    intros H1 H2. unfold spec_renewal_rule. destruct l, r; auto.
    destruct (Z.eqb_spec s 1); [congruence|].
    destruct (Z.eqb_spec s 2); [congruence|]. reflexivity.
Qed.

End CleanerExtras.

(** ** The date loop *)

Lemma existsb_Permutation {A} (p : A -> bool) (l l' : list A) :
  Permutation l l' -> existsb p l = existsb p l'.
Proof.
  induction 1 as [|x l l' _ IH|x y l|l l' l'' _ IH1 _ IH2]; simpl.
  - reflexivity.
  - rewrite IH. reflexivity.
  - destruct (p x), (p y); reflexivity.
  - congruence.
Qed.

Lemma frame_ext (a b : DataFrame) :
  Type_fuel a = Type_fuel b -> Length a = Length b ->
  Distribution_channel a = Distribution_channel b -> Lapse a = Lapse b ->
  flag_invalid_start_vs_last a = flag_invalid_start_vs_last b ->
  (forall f, get_date f a = get_date f b) ->
  a = b.
Proof.
  destruct a, b; simpl. intros -> -> -> -> -> H.
  pose proof (H F_start_contract). pose proof (H F_last_renewal).
  pose proof (H F_next_renewal). pose proof (H F_birth).
  pose proof (H F_driving_licence). pose proof (H F_lapse).
  simpl in *. congruence.
Qed.

Lemma date_columns_NoDup : NoDup date_columns.
Proof.
  unfold date_columns.
  repeat (constructor;
    [rewrite ?elem_of_cons, ?elem_of_nil; intuition discriminate|]).
  constructor.
Qed.

Section DateLoop.

Variable parse : list (option string) -> string -> option Z.
Variable zone : list (option string) -> Zone.

Lemma dates_converted_get (l : list DateField) (df : DataFrame) (g : DateField) :
  get_date g (dates_converted parse l df) =
  if existsb (fun h => bool_decide (h = g)) l
  then Datetime UTC (normalized parse g df)
  else get_date g df.
Proof. destruct g; reflexivity. Qed.

Lemma get_set_date (f g : DateField) (v : DateCol) (df : DataFrame) :
  get_date g (set_date f v df) = if bool_decide (f = g) then v else get_date g df.
Proof. destruct f, g; reflexivity. Qed.

Lemma normalized_set_date (f g : DateField) (v : DateCol) (df : DataFrame) :
  f <> g -> normalized parse g (set_date f v df) = normalized parse g df.
Proof.
  intros Hne. unfold normalized. rewrite get_set_date.
  rewrite bool_decide_eq_false_2; [reflexivity | exact Hne].
Qed.

Lemma aware_after_set (f : DateField) (l : list DateField) (v : DateCol)
      (df : DataFrame) :
  f ∉ l ->
  existsb (fun g => is_aware (to_datetime parse zone (get_date g (set_date f v df)))) l
  = existsb (fun g => is_aware (to_datetime parse zone (get_date g df))) l.
Proof.
  induction l as [|g l IH]; intros Hnotin; [reflexivity|].
  apply not_elem_of_cons in Hnotin as [Hne Hnotin].
  cbn [existsb]. rewrite get_set_date, bool_decide_eq_false_2 by exact Hne.
  rewrite IH by exact Hnotin. reflexivity.
Qed.

Lemma dates_converted_cons (f : DateField) (l : list DateField) (df : DataFrame) :
  f ∉ l ->
  dates_converted parse l (set_date f (Datetime UTC (normalized parse f df)) df)
  = dates_converted parse (f :: l) df.
Proof.
  intros Hnotin. apply frame_ext; try reflexivity.
  intros g. rewrite !dates_converted_get. cbn [existsb]. rewrite get_set_date.
  destruct (decide (f = g)) as [<-|Hne].
  - rewrite bool_decide_eq_true_2 by reflexivity. cbn [orb].
    assert (Hno : existsb (fun h => bool_decide (h = f)) l = false).
    { apply not_true_is_false. intros Hex.
      apply existsb_exists in Hex as (h & Hin & Hh).
      apply bool_decide_eq_true_1 in Hh as ->. apply Hnotin.
      apply list_elem_of_In, Hin. }
    rewrite Hno. reflexivity.
  - rewrite bool_decide_eq_false_2 by exact Hne. cbn [orb].
    rewrite normalized_set_date by exact Hne. reflexivity.
Qed.

(** The date loop over any list of distinct columns: it stops with
    [TypeError] when one of them is tz-aware, and otherwise converts
    exactly those columns. *)
Lemma date_loop_eq (l : list DateField) :
  NoDup l ->
  forall df,
    foldM (convert_date_column parse zone) l df =
    if existsb (fun f => is_aware (to_datetime parse zone (get_date f df))) l
    then Raise TypeError
    else Ok (dates_converted parse l df).
Proof.
  induction 1 as [|f l Hnotin Hnodup IH]; intros df.
  - simpl. f_equal. apply frame_ext; reflexivity.
  - cbn [foldM existsb]. rewrite convert_date_column_eq.
    destruct (is_aware (to_datetime parse zone (get_date f df))) eqn:Hf; cbn [bind orb]; [reflexivity|].
    rewrite IH, aware_after_set by exact Hnotin.
    destruct (existsb (fun g => is_aware (to_datetime parse zone (get_date g df))) l); [reflexivity|].
    rewrite dates_converted_cons by exact Hnotin. reflexivity.
Qed.

(** The date loop gives the same frame, or the same error, in whatever
    order it takes the six columns. *)
Theorem date_loop_order_is_immaterial (l : list DateField) (df : DataFrame) :
  Permutation l date_columns ->
  foldM (convert_date_column parse zone) l df
  = foldM (convert_date_column parse zone) date_columns df.
Proof.
  intros Hperm.
  pose proof date_columns_NoDup as Hnodup.
  rewrite !date_loop_eq; [| exact Hnodup | rewrite Hperm; exact Hnodup].
  rewrite (existsb_Permutation _ _ _ Hperm).
  destruct (existsb _ date_columns); [reflexivity|].
  f_equal. apply frame_ext; try reflexivity.
  intros g. rewrite !dates_converted_get.
  rewrite (existsb_Permutation _ _ _ Hperm). reflexivity.
Qed.

End DateLoop.

(** ** What is logged *)

Lemma isnull_sum_fillna {A} (v : A) (col : list (option A)) :
  isnull_sum (fillna (Some v) col) = 0.
Proof.
  induction col as [|[x|] col IH]; [reflexivity| |];
    unfold isnull_sum, fillna in *; rewrite fmap_cons; cbn [foldr]; rewrite IH;
    reflexivity.
Qed.

Lemma isnull_sum_all_null {A} (col : list (option A)) :
  (forall i c, col !! i = Some c -> c = None) ->
  isnull_sum col = Z.of_nat (length col).
Proof.
  induction col as [|c col IH]; intros H; [reflexivity|].
  rewrite (H 0%nat c eq_refl). unfold isnull_sum in *. cbn [foldr length].
  rewrite IH; [lia|]. intros i. apply (H (S i)).
Qed.

Lemma count_true_all_false (mask : list bool) :
  (forall i b, mask !! i = Some b -> b = false) -> count_true mask = 0.
Proof.
  induction mask as [|b mask IH]; intros H; [reflexivity|].
  rewrite (H 0%nat b eq_refl). unfold count_true in *. cbn [foldr].
  rewrite IH; [reflexivity|]. intros i. apply (H (S i)).
Qed.

Lemma log_then {A} (r : LogRecord) (k : Logged A) :
  bind_logged (info r) (fun _ => k) = (r :: fst k, snd k).
Proof. unfold bind_logged, info. destruct k. reflexivity. Qed.

Lemma lift_then {A B} (m : result A) (k : A -> Logged B) :
  bind_logged (lift m) k =
  match m with Ok a => k a | Raise e => ([], Raise e) end.
Proof. unfold bind_logged, lift. destruct m; [destruct (k a)|]; reflexivity. Qed.

Lemma snd_bind_logged {A B} (m : Logged A) (k : A -> Logged B) :
  snd (bind_logged m k) = bind (snd m) (fun a => snd (k a)).
Proof. destruct m as [log [a|e]]; simpl; [destruct (k a)|]; reflexivity. Qed.

Lemma isnull_sum_le {A} (xs ys : list (option A)) :
  Forall2 (fun a b => a = None -> b = None) xs ys ->
  isnull_sum xs <= isnull_sum ys.
Proof.
  unfold isnull_sum. induction 1 as [|a b xs ys Hab _ IH]; [reflexivity|].
  cbn [foldr]. destruct a as [a|]; [destruct b; lia|].
  rewrite (Hab eq_refl). lia.
Qed.

Lemma coerce_ms_spec (ns : Z) :
  Z.abs (ns - coerce_ms ns * ns_per_ms) < ns_per_ms
  /\ Z.abs (coerce_ms ns * ns_per_ms) <= Z.abs ns
  /\ (ns mod ns_per_ms = 0 -> coerce_ms ns * ns_per_ms = ns).
Proof.
  unfold coerce_ms, ns_per_ms.
  pose proof (Z.quot_rem' ns (10 ^ 6)) as Hqr.
  pose proof (Z.rem_bound_abs ns (10 ^ 6)) as Hb.
  assert (Hsign : 0 <= Z.rem ns (10 ^ 6) * ns) by (apply Z.rem_sign_mul; lia).
  split; [|split].
  - lia.
  - nia.
  - intros Hmod. apply Z.mod_divide in Hmod as [k Hk]; [|lia].
    assert (Hr : Z.rem ns (10 ^ 6) = 0).
    { apply Z.rem_divide; [lia|]. exists k. exact Hk. }
    lia.
Qed.

Lemma Zsum_bool_astype_int (mask : list bool) :
  Zsum (bool_astype_int mask) = count_true mask.
Proof.
  unfold Zsum, bool_astype_int, count_true.
  induction mask as [|b mask IH]; [reflexivity|].
  rewrite fmap_cons. cbn [foldr]. rewrite IH. reflexivity.
Qed.

Lemma count_true_bounds (mask : list bool) :
  0 <= count_true mask <= Z.of_nat (length mask).
Proof.
  unfold count_true. induction mask as [|b mask IH]; cbn [foldr length]; [lia|].
  destruct b; lia.
Qed.

Section LoggedFacts.

Variable parse : list (option string) -> string -> option Z.
Variable zone : list (option string) -> Zone.

Lemma convert_logged_eq (f : DateField) (df : DataFrame) :
  is_aware (to_datetime parse zone (get_date f df)) = false ->
  convert_date_column_logged parse zone f df =
  ([Converted f (DatetimeDtype UTC) (isnull_sum (normalized parse f df))],
   Ok (set_date f (Datetime UTC (normalized parse f df)) df)).
Proof.
  intros H. unfold convert_date_column_logged.
  rewrite convert_date_column_eq, H, lift_then, log_then. cbn [fst snd ret_logged].
  rewrite get_set_date, bool_decide_eq_true_2 by reflexivity. reflexivity.
Qed.

Lemma date_loop_logged_eq (l : list DateField) :
  NoDup l ->
  forall df,
    existsb (fun f => is_aware (to_datetime parse zone (get_date f df))) l = false ->
    foldM_logged (convert_date_column_logged parse zone) l df =
    ((fun f => Converted f (DatetimeDtype UTC) (isnull_sum (normalized parse f df)))
       <$> l,
     Ok (dates_converted parse l df)).
Proof.
  induction 1 as [|f l Hnotin Hnodup IH]; intros df Hnaive.
  - simpl. unfold ret_logged. do 2 f_equal. apply frame_ext; reflexivity.
  - cbn [existsb] in Hnaive. apply orb_false_iff in Hnaive as [Hf Hl].
    cbn [foldM_logged]. rewrite convert_logged_eq by exact Hf.
    cbn [bind_logged]. rewrite IH by (rewrite aware_after_set; assumption).
    rewrite dates_converted_cons by exact Hnotin.
    rewrite fmap_cons. cbn [app]. do 2 f_equal.
    apply list_fmap_ext. intros i g Hg. do 2 f_equal.
    apply normalized_set_date. intros Heq. apply Hnotin. rewrite Heq.
    apply list_elem_of_lookup. eauto.
Qed.

Lemma clean_data_logged_Ok (df out : DataFrame) :
  clean_data parse zone df = Ok out ->
  clean_data_logged parse zone df = (success_log parse df out, Ok out).
Proof.
  intros H. apply clean_data_Ok in H as (channel & Hchannel & Hnaive & ->).
  unfold clean_data_logged. cbv zeta.
  rewrite !log_then.
  cbn [Distribution_channel set_Distribution_channel set_Length set_Type_fuel].
  unfold astype_int. rewrite Hchannel. cbn [bind]. rewrite lift_then, log_then.
  rewrite date_loop_logged_eq; [| apply date_columns_NoDup | exact Hnaive].
  reflexivity.
Qed.

Lemma foldM_logged_outcome (l : list DateField) (df : DataFrame) :
  snd (foldM_logged (convert_date_column_logged parse zone) l df)
  = foldM (convert_date_column parse zone) l df.
Proof.
  revert df. induction l as [|f l IH]; intros df; [reflexivity|].
  cbn [foldM_logged foldM]. rewrite snd_bind_logged.
  unfold convert_date_column_logged at 1. rewrite lift_then.
  destruct (convert_date_column parse zone f df) as [df'|e]; [|reflexivity].
  rewrite log_then. cbn [snd ret_logged bind]. apply IH.
Qed.

(** Logging changes nothing in what the task does. *)
Lemma clean_data_logged_outcome (df : DataFrame) :
  snd (clean_data_logged parse zone df) = clean_data parse zone df.
Proof.
  unfold clean_data_logged, clean_data. cbv zeta.
  rewrite !log_then. cbn [snd]. rewrite snd_bind_logged. cbn [lift snd].
  destruct (astype_int _) as [channel|e]; [|reflexivity]. cbn [bind].
  rewrite log_then. cbn [snd]. rewrite snd_bind_logged, foldM_logged_outcome.
  destruct (foldM _ _ _) as [df'|e]; [|reflexivity]. cbn [bind].
  rewrite snd_bind_logged. cbn [lift snd].
  destruct (date_gt _ _) as [after|e]; [|reflexivity]. cbn [bind].
  rewrite snd_bind_logged. cbn [lift snd].
  destruct (date_gt _ _) as [still|e]; [|reflexivity]. cbn [bind].
  rewrite log_then. cbn [snd]. rewrite snd_bind_logged. cbn [lift snd].
  destruct (date_gt _ _) as [start|e]; [|reflexivity]. cbn [bind].
  rewrite !log_then. reflexivity.
Qed.

Lemma clean_data_logged_inv (df out : DataFrame) (log : list LogRecord) :
  clean_data_logged parse zone df = (log, Ok out) ->
  clean_data parse zone df = Ok out /\ log = success_log parse df out.
Proof.
  intros H. assert (Hout : clean_data parse zone df = Ok out).
  { rewrite <- clean_data_logged_outcome, H. reflexivity. }
  split; [exact Hout|]. rewrite (clean_data_logged_Ok _ _ Hout) in H. congruence.
Qed.

(** On a frame with a [Type_fuel] column and a float [Length] column, the
    records of the task open with the two null counts, whether the channel
    conversion or the date loop stop it afterwards or not.  The count for
    [Type_fuel] is 0.  The count for [Length] is 0 when the float mean is a
    number, and the number of null lengths when it is NaN; that is the
    number of rows when the column has no value: this record is where an
    all-null [Length] shows. *)
Theorem log_opens_with_null_counts (df : DataFrame) :
  exists k rest,
    fst (clean_data_logged parse zone df)
    = Missing_Type_fuel 0 :: Missing_Length k :: rest
    /\ (mean (Length df) <> None -> k = 0)
    /\ (mean (Length df) = None -> k = isnull_sum (Length df))
    /\ ((forall i c, Length df !! i = Some c -> c = None) ->
        k = Z.of_nat (length (Length df))).
Proof.
  unfold clean_data_logged. cbv zeta. rewrite !log_then. cbn [fst].
  cbn [Type_fuel Length set_Type_fuel set_Length].
  rewrite isnull_sum_fillna. eexists _, _. split; [reflexivity|].
  split; [|split].
  - destruct (mean (Length df)) as [m|]; [|congruence].
    intros _. apply isnull_sum_fillna.
  - intros ->. rewrite fillna_NaN. reflexivity.
  - intros Hnull. rewrite (mean_all_null _ Hnull), fillna_NaN.
    apply isnull_sum_all_null, Hnull.
Qed.

Lemma in_success_log_Corrected (df out : DataFrame) (n : Z) :
  In (Corrected n) (success_log parse df out) ->
  n = count_true (zip_with gt_cell (date_cells (Date_last_renewal out))
                                   (date_cells (Date_lapse out))).
Proof.
  unfold success_log. cbn [date_columns fmap list_fmap app In].
  intros H. repeat (destruct H as [H|H]; [try discriminate|]); [|destruct H].
  injection H as <-. reflexivity.
Qed.

Lemma in_success_log_Converted (df out : DataFrame) (f : DateField)
      (dt : Dtype) (k : Z) :
  In (Converted f dt k) (success_log parse df out) ->
  dt = DatetimeDtype UTC /\ k = isnull_sum (normalized parse f df).
Proof.
  unfold success_log. cbn [date_columns fmap list_fmap app In].
  intros H.
  repeat (destruct H as [H|H];
          [try discriminate; try (injection H as <- <- <-; auto)|]).
  destruct H.
Qed.

(** The record of line 72 does not count the rows that were corrected: it
    counts the rows that, after the correction, still have a last renewal
    later than the lapse date.  When every [Lapse] is 0, 1 or 2 it reads 0,
    however many rows were corrected. *)
Theorem corrected_record_counts_what_is_left (df out : DataFrame)
        (log : list LogRecord) :
  clean_data_logged parse zone df = (log, Ok out) ->
  exists n,
    In (Corrected n) log
    /\ (forall m, In (Corrected m) log -> m = n)
    /\ n = count_true (zip_with gt_cell (date_cells (Date_last_renewal out))
                                        (date_cells (Date_lapse out)))
    /\ ((forall i s, Lapse df !! i = Some s -> s = Some 0 \/ s = Some 1 \/ s = Some 2)
        -> n = 0).
Proof.
  intros H. apply clean_data_logged_inv in H as [Hout ->].
  eexists. split; [|split; [|split; [reflexivity|]]].
  - unfold success_log. cbn [date_columns fmap list_fmap app In]. tauto.
  - intros m Hm. apply (in_success_log_Corrected df out m Hm).
  - intros Hstatus. apply count_true_all_false. intros i b.
    apply clean_data_Ok in Hout as (channel & _ & _ & ->).
    cbn [Date_last_renewal Date_lapse cleaned date_cells].
    rewrite lookup_zip_with, renewal_fixed_lookup, lapse_fixed_lookup.
    destruct (Lapse df !! i) as [s|] eqn:Hs; simpl; [|discriminate].
    destruct (normalized parse F_lapse df !! i) as [l|]; simpl; [|discriminate].
    destruct (normalized parse F_last_renewal df !! i) as [r|]; simpl; [|discriminate].
    intros Hb. injection Hb as <-.
    destruct (Hstatus i s Hs) as [-> | [-> | ->]]; destruct l as [l|], r as [r|];
      simpl; try reflexivity;
      (destruct (Z.ltb_spec l r); simpl; [reflexivity | apply Z.ltb_ge; assumption]).
Qed.

(** The null count logged for a date column is taken when the column is
    converted, before the corrections: it is the count that is written for
    the four columns no correction touches, and a lower bound of it for the
    lapse date and the last renewal. *)
Theorem converted_record_counts_before_corrections (n : nat) (df out : DataFrame)
        (log : list LogRecord) :
  has_rows n df ->
  clean_data_logged parse zone df = (log, Ok out) ->
  forall f dt k,
    In (Converted f dt k) log ->
    dt = DatetimeDtype UTC
    /\ k = isnull_sum (normalized parse f df)
    /\ k <= date_isnull_sum (get_date f out)
    /\ (f <> F_lapse -> f <> F_last_renewal -> k = date_isnull_sum (get_date f out)).
Proof.
  intros Hrows H f dt k Hin. apply clean_data_logged_inv in H as [Hout ->].
  apply in_success_log_Converted in Hin as [-> ->].
  split; [reflexivity|]. split; [reflexivity|].
  pose proof (lapse_fixed_length parse n df Hrows) as Hl.
  pose proof (renewal_fixed_length parse n df Hrows) as Hr.
  destruct Hrows as (_ & _ & _ & _ & Hd & _).
  apply clean_data_Ok in Hout as (channel & _ & _ & ->).
  destruct f; cbn [get_date cleaned date_isnull_sum Date_start_contract
    Date_last_renewal Date_next_renewal Date_birth Date_driving_licence Date_lapse];
    try (split; [reflexivity | reflexivity]).
  - split; [|congruence]. apply isnull_sum_le.
    apply Forall2_same_length_lookup_2.
    + rewrite Hr, normalized_length. apply Hd.
    + intros i x y Hx. rewrite renewal_fixed_lookup, Hx.
      destruct (Lapse df !! i) as [s|]; simpl; [|discriminate].
      destruct (normalized parse F_lapse df !! i) as [l|]; simpl; [|discriminate].
      intros Hy. injection Hy as <-. intros ->.
      destruct s, (spec_lapse_rule _ l); reflexivity.
  - split; [|congruence]. apply isnull_sum_le.
    apply Forall2_same_length_lookup_2.
    + rewrite Hl, normalized_length. apply Hd.
    + intros i x y Hx. rewrite lapse_fixed_lookup, Hx.
      destruct (Lapse df !! i) as [s|]; simpl; [|discriminate].
      intros Hy. injection Hy as <-. intros ->. destruct s as [[|?|?]|]; reflexivity.
Qed.

Lemma date_loop_logs_conversions (l : list DateField) (df : DataFrame) :
  Forall (fun r => exists f dt k, r = Converted f dt k)
         (fst (foldM_logged (convert_date_column_logged parse zone) l df)).
Proof.
  revert df. induction l as [|f l IH]; intros df; [constructor|].
  cbn [foldM_logged]. unfold convert_date_column_logged at 1.
  rewrite lift_then.
  destruct (convert_date_column parse zone f df) as [df'|e]; [|constructor].
  rewrite log_then. cbn [fst snd ret_logged bind_logged].
  specialize (IH df'). destruct (foldM_logged _ l df') as [log' r].
  cbn [app fst] in *. constructor; [eauto | exact IH].
Qed.

(** The write itself taken to succeed, the record of line 85 is in the log
    exactly when the cleaning steps succeed: a run that raises in them logs
    neither that the file is being saved nor that it was saved. *)
Theorem saved_is_logged_iff_success (df : DataFrame) :
  (In Saved (fst (clean_data_logged parse zone df))
   <-> exists out, clean_data parse zone df = Ok out)
  /\ (forall e, clean_data parse zone df = Raise e ->
      ~ In Saving (fst (clean_data_logged parse zone df))).
Proof.
  assert (Hfail : forall e, clean_data parse zone df = Raise e ->
    ~ In Saving (fst (clean_data_logged parse zone df))
    /\ ~ In Saved (fst (clean_data_logged parse zone df))).
  { intros e He. pose proof He as He'. rewrite clean_data_eq in He'.
    unfold clean_data_logged. cbv zeta. rewrite !log_then. cbn [fst snd].
    rewrite lift_then. unfold astype_int.
    cbn [Distribution_channel set_Distribution_channel set_Length set_Type_fuel].
    destruct (mapM astype_int_cell _) as [channel|e'']; cbn [bind] in *.
    - rewrite log_then. cbn [fst].
      pose proof (date_loop_logs_conversions date_columns
        (set_Distribution_channel (ChInt <$> channel)
           (set_Length (fillna (mean (Length df)) (Length df))
              (set_Type_fuel (fillna (Some "Unknown") (Type_fuel df)) df)))) as Hlogs.
      pose proof (foldM_logged_outcome date_columns
        (set_Distribution_channel (ChInt <$> channel)
           (set_Length (fillna (mean (Length df)) (Length df))
              (set_Type_fuel (fillna (Some "Unknown") (Type_fuel df)) df)))) as Hsnd.
      rewrite date_loop_eq in Hsnd by apply date_columns_NoDup.
      change (existsb _ date_columns)
        with (existsb (fun f => is_aware (to_datetime parse zone (get_date f df))) date_columns) in Hsnd.
      destruct (existsb (fun f => is_aware (to_datetime parse zone (get_date f df))) date_columns);
        [|discriminate].
      destruct (foldM_logged _ date_columns _) as [log1 r1].
      cbn [fst snd] in *. subst r1. cbn [bind_logged fst].
      rewrite Forall_forall in Hlogs.
      split; intros [H|[H|[H|H]]]; try discriminate;
        apply list_elem_of_In, Hlogs in H as (? & ? & ? & ?); discriminate.
    - cbn [fst]. split; intros [H|[H|[]]]; discriminate. }
  split; [split|].
  - intros Hin. destruct (clean_data parse zone df) as [out|e] eqn:E; [eauto|].
    destruct (Hfail e eq_refl) as [_ Hno]. contradiction.
  - intros [out Hout]. rewrite (clean_data_logged_Ok _ _ Hout).
    unfold success_log. cbn [fst date_columns fmap list_fmap app In]. tauto.
  - intros e He. apply (Hfail e He).
Qed.

(** The record of line 79 is the number of flagged rows. *)
Theorem flagged_record_counts_flagged_rows (df out : DataFrame)
        (log : list LogRecord) :
  clean_data_logged parse zone df = (log, Ok out) ->
  exists n flags,
    In (Flagged n) log
    /\ (forall m, In (Flagged m) log -> m = n)
    /\ flag_invalid_start_vs_last out = Some flags
    /\ n = Zsum flags
    /\ n = count_true (zip_with gt_cell (date_cells (Date_start_contract out))
                                        (date_cells (Date_last_renewal out)))
    /\ 0 <= n <= Z.of_nat (length flags).
Proof.
  intros H. apply clean_data_logged_inv in H as [Hout ->].
  apply clean_data_Ok in Hout as (channel & _ & _ & ->).
  eexists _, _. split; [|split; [|split; [reflexivity|split; [reflexivity|]]]].
  - unfold success_log. cbn [date_columns fmap list_fmap app In
      flag_invalid_start_vs_last cleaned]. tauto.
  - unfold success_log. cbn [date_columns fmap list_fmap app In
      flag_invalid_start_vs_last cleaned].
    intros m Hm. repeat (destruct Hm as [Hm|Hm]; [try discriminate|]);
      [|destruct Hm].
    injection Hm as <-. reflexivity.
  - rewrite Zsum_bool_astype_int. split; [reflexivity|].
    unfold bool_astype_int. rewrite length_fmap. apply count_true_bounds.
Qed.

(** ** What is written *)

(** Every timestamp written to the Parquet file is the cleaned instant cut
    to milliseconds toward the epoch: it differs from it by less than a
    millisecond, is the same instant when that is a whole number of
    milliseconds, and is never before 0001-01-01. *)
Theorem written_timestamps_are_truncated (df out : DataFrame) :
  clean_data parse zone df = Ok out ->
  forall f i ms,
    written_ms (get_date f out) !! i = Some (Some ms) ->
    exists ns,
      date_cells (get_date f out) !! i = Some (Some ns)
      /\ ms = coerce_ms ns
      /\ Z.abs (ns - ms * ns_per_ms) < ns_per_ms
      /\ Z.abs (ms * ns_per_ms) <= Z.abs ns
      /\ (ns mod ns_per_ms = 0 -> ms * ns_per_ms = ns)
      /\ coerce_ms ts_limit <= ms.
Proof.
  intros H f i ms. unfold written_ms. rewrite list_lookup_fmap.
  destruct (date_cells (get_date f out) !! i) as [[ns|]|] eqn:Hi; simpl;
    try discriminate.
  intros Hms. injection Hms as <-. exists ns. split; [reflexivity|].
  split; [reflexivity|].
  destruct (coerce_ms_spec ns) as (H1 & H2 & H3).
  repeat split; try assumption.
  apply clean_data_Ok in H as (channel & _ & _ & ->).
  apply cleaned_date_lookup in Hi as (p & _ & [Hc|Hc] & _); [discriminate|].
  symmetry in Hc. apply spec_floor_Some in Hc as [_ Hle].
  unfold coerce_ms. apply Z.quot_le_mono; [reflexivity | exact Hle].
Qed.

End LoggedFacts.

(** ** A frame without rows *)

Section EmptyFrame.

Variable parse : list (option string) -> string -> option Z.
Variable zone : list (option string) -> Zone.

(** The task accepts a frame without rows: unless a date column is
    tz-aware it runs to the end and writes a frame without rows, whose
    [Length] has no mean. *)
Theorem empty_frame_is_cleaned (df : DataFrame) :
  has_rows 0 df ->
  (forall f, is_aware (get_date f df) = false) ->
  exists out,
    clean_data parse zone df = Ok out
    /\ has_rows 0 out
    /\ flag_invalid_start_vs_last out = Some []
    /\ mean (Length out) = None.
Proof.
  intros Hrows Hnaive. exists (cleaned parse df []).
  pose proof Hrows as (_ & HL & Hch & _).
  apply nil_length_inv in Hch. apply nil_length_inv in HL.
  split.
  - rewrite clean_data_eq, Hch. cbn [fmap list_fmap mapM bind].
    rewrite (proj2 (no_aware_column parse zone df)); [reflexivity|].
    intros f. specialize (Hnaive f).
    destruct Hrows as (_ & _ & _ & _ & Hd & _). specialize (Hd f).
    destruct (get_date f df) as [cells|z cells]; [|exact Hnaive].
    apply nil_length_inv in Hd. rewrite Hd. reflexivity.
  - destruct (cleaned_has_rows parse 0 df [] Hrows eq_refl) as [Hout Hflag].
    split; [exact Hout|]. apply nil_length_inv in Hflag.
    cbn [flag_invalid_start_vs_last Length cleaned]. rewrite Hflag, HL.
    split; reflexivity.
Qed.

End EmptyFrame.

(** ** Instances of the further properties *)

Lemma batch3_has_rows : has_rows 3 batch3.
Proof.
  repeat split; try reflexivity; [intros []; reflexivity | discriminate].
Defined.

Lemma clean_data_keeps_rows_witness :
  has_rows 3 batch3
  /\ clean_data parse_dmy zone_dmy batch3 = Ok cleaned3
  /\ has_rows 3 cleaned3
  /\ Lapse cleaned3 = Lapse batch3
  /\ exists flags,
       flag_invalid_start_vs_last cleaned3 = Some flags /\ length flags = 3%nat.
Proof.
  split; [exact batch3_has_rows|]. split; [vm_compute; reflexivity|].
  apply (clean_data_keeps_rows parse_dmy zone_dmy 3 batch3 cleaned3).
  - exact batch3_has_rows.
  - vm_compute; reflexivity.
Defined.

Lemma cleaned_channel_is_int64_witness :
  clean_data parse_dmy zone_dmy batch3 = Ok cleaned3
  /\ forall i c,
       Distribution_channel cleaned3 !! i = Some c ->
       exists z, c = ChInt z /\ int64_min <= z <= int64_max.
Proof.
  split; [vm_compute; reflexivity|].
  apply (cleaned_channel_is_int64 parse_dmy zone_dmy batch3 cleaned3).
  vm_compute; reflexivity.
Defined.

Lemma corrections_fall_on_different_rows_witness :
  clean_data parse_dmy zone_dmy batch3 = Ok cleaned3
  /\ forall i s l r l' r',
       Lapse batch3 !! i = Some s ->
       normalized parse_dmy F_lapse batch3 !! i = Some l ->
       normalized parse_dmy F_last_renewal batch3 !! i = Some r ->
       date_cells (Date_lapse cleaned3) !! i = Some l' ->
       date_cells (Date_last_renewal cleaned3) !! i = Some r' ->
       (l' = l \/ r' = r)
       /\ (s <> Some 0 -> l' = l)
       /\ (s <> Some 1 -> s <> Some 2 -> r' = r).
Proof.
  split; [vm_compute; reflexivity|].
  apply (corrections_fall_on_different_rows parse_dmy zone_dmy batch3 cleaned3).
  vm_compute; reflexivity.
Defined.

Lemma date_loop_order_is_immaterial_witness :
  Permutation (rev date_columns) date_columns
  /\ foldM (convert_date_column parse_dmy zone_dmy) (rev date_columns) batch3
     = foldM (convert_date_column parse_dmy zone_dmy) date_columns batch3.
Proof.
  assert (H : Permutation (rev date_columns) date_columns)
    by (symmetry; apply Permutation_rev).
  split; [exact H|].
  apply (date_loop_order_is_immaterial parse_dmy zone_dmy (rev date_columns) batch3 H).
Defined.

(** [batch_null_channel] stops at line 47, after the two records. *)
Lemma log_opens_with_null_counts_witness :
  (exists e, clean_data parse_dmy zone_dmy batch_null_channel = Raise e)
  /\ mean (Length batch_null_channel) <> None
  /\ exists k rest,
       fst (clean_data_logged parse_dmy zone_dmy batch_null_channel)
       = Missing_Type_fuel 0 :: Missing_Length k :: rest
       /\ k = 0.
Proof.
  split; [eexists; vm_compute; reflexivity|].
  split; [vm_compute; discriminate|].
  destruct (log_opens_with_null_counts parse_dmy zone_dmy batch_null_channel)
    as (k & rest & Hlog & Hvalue & _).
  exists k, rest. split; [exact Hlog|]. apply Hvalue. vm_compute. discriminate.
Defined.

Lemma corrected_record_counts_what_is_left_witness :
  clean_data_logged parse_dmy zone_dmy batch3 = (log3, Ok cleaned3)
  /\ exists n,
       In (Corrected n) log3
       /\ (forall m, In (Corrected m) log3 -> m = n)
       /\ n = count_true (zip_with gt_cell (date_cells (Date_last_renewal cleaned3))
                                           (date_cells (Date_lapse cleaned3)))
       /\ ((forall i s, Lapse batch3 !! i = Some s ->
            s = Some 0 \/ s = Some 1 \/ s = Some 2) -> n = 0).
Proof.
  split; [vm_compute; reflexivity|].
  apply (corrected_record_counts_what_is_left parse_dmy zone_dmy batch3 cleaned3 log3).
  vm_compute; reflexivity.
Defined.

Lemma converted_record_counts_before_corrections_witness :
  has_rows 3 batch3
  /\ clean_data_logged parse_dmy zone_dmy batch3 = (log3, Ok cleaned3)
  /\ forall f dt k,
       In (Converted f dt k) log3 ->
       dt = DatetimeDtype UTC
       /\ k = isnull_sum (normalized parse_dmy f batch3)
       /\ k <= date_isnull_sum (get_date f cleaned3)
       /\ (f <> F_lapse -> f <> F_last_renewal ->
           k = date_isnull_sum (get_date f cleaned3)).
Proof.
  split; [exact batch3_has_rows|]. split; [vm_compute; reflexivity|].
  apply (converted_record_counts_before_corrections parse_dmy zone_dmy 3 batch3 cleaned3 log3).
  - exact batch3_has_rows.
  - vm_compute; reflexivity.
Defined.

Lemma saved_is_logged_iff_success_witness :
  (In Saved (fst (clean_data_logged parse_dmy zone_dmy batch_null_channel))
   <-> exists out, clean_data parse_dmy zone_dmy batch_null_channel = Ok out)
  /\ (forall e, clean_data parse_dmy zone_dmy batch_null_channel = Raise e ->
      ~ In Saving (fst (clean_data_logged parse_dmy zone_dmy batch_null_channel))).
Proof. apply (saved_is_logged_iff_success parse_dmy zone_dmy batch_null_channel). Defined.

Lemma flagged_record_counts_flagged_rows_witness :
  clean_data_logged parse_dmy zone_dmy batch3 = (log3, Ok cleaned3)
  /\ exists n flags,
       In (Flagged n) log3
       /\ (forall m, In (Flagged m) log3 -> m = n)
       /\ flag_invalid_start_vs_last cleaned3 = Some flags
       /\ n = Zsum flags
       /\ n = count_true (zip_with gt_cell (date_cells (Date_start_contract cleaned3))
                                           (date_cells (Date_last_renewal cleaned3)))
       /\ 0 <= n <= Z.of_nat (length flags).
Proof.
  split; [vm_compute; reflexivity|].
  apply (flagged_record_counts_flagged_rows parse_dmy zone_dmy batch3 cleaned3 log3).
  vm_compute; reflexivity.
Defined.

Lemma written_timestamps_are_truncated_witness :
  clean_data parse_dmy zone_dmy batch3 = Ok cleaned3
  /\ forall f i ms,
       written_ms (get_date f cleaned3) !! i = Some (Some ms) ->
       exists ns,
         date_cells (get_date f cleaned3) !! i = Some (Some ns)
         /\ ms = coerce_ms ns
         /\ Z.abs (ns - ms * ns_per_ms) < ns_per_ms
         /\ Z.abs (ms * ns_per_ms) <= Z.abs ns
         /\ (ns mod ns_per_ms = 0 -> ms * ns_per_ms = ns)
         /\ coerce_ms ts_limit <= ms.
Proof.
  split; [vm_compute; reflexivity|].
  apply (written_timestamps_are_truncated parse_dmy zone_dmy batch3 cleaned3).
  vm_compute; reflexivity.
Defined.

Lemma empty_frame_is_cleaned_witness :
  has_rows 0 batch0
  /\ (forall f, is_aware (get_date f batch0) = false)
  /\ exists out,
       clean_data parse_dmy zone_dmy batch0 = Ok out
       /\ has_rows 0 out
       /\ flag_invalid_start_vs_last out = Some []
       /\ mean (Length out) = None.
Proof.
  assert (Hrows : has_rows 0 batch0)
    by (repeat split; try reflexivity; [intros []; reflexivity | discriminate]).
  assert (Hnaive : forall f, is_aware (get_date f batch0) = false)
    by (intros []; reflexivity).
  split; [exact Hrows|]. split; [exact Hnaive|].
  apply (empty_frame_is_cleaned parse_dmy zone_dmy batch0 Hrows Hnaive).
Defined.

(** The records of cleaning [batch3]: no null fuel type or length is left,
    the channels met are 0 and 1, and although one renewal was dropped the
    record of line 72 reads 0. *)
Example log3_records :
  log3 =
  [Missing_Type_fuel 0; Missing_Length 0; Unique_channel [ChInt 0; ChInt 1];
   Converted F_start_contract (DatetimeDtype UTC) 0;
   Converted F_last_renewal (DatetimeDtype UTC) 0;
   Converted F_next_renewal (DatetimeDtype UTC) 1;
   Converted F_birth (DatetimeDtype UTC) 2;
   Converted F_driving_licence (DatetimeDtype UTC) 2;
   Converted F_lapse (DatetimeDtype UTC) 1;
   Corrected 0; Flagged 1; Saving; Saved].
Proof. reflexivity. Qed.
